(** * My-Sheet-Music: the users router (backend/routes/users.js)

    A shallow embedding of the six route handlers of [routes/users.js]
    and of the modules they [require].  JavaScript values are a small
    inductive type of JSON data; an [async] handler is a function in a
    state-and-exception monad whose state is the world the collaborators
    act on (the database, the external catalog) together with the trace of
    the calls the handler made. *)

From Stdlib Require Import List String Ascii Bool ZArith QArith Lia.
From Stdlib Require Import DecimalString.
Import ListNotations.
Close Scope Q_scope.
Local Open Scope string_scope.
Local Open Scope list_scope.

(** ** JavaScript values *)

Module Js.

(** A Number: NaN, an infinity, or a finite value (the doubles are among
    the rationals; the sign of zero is observed by none of the handlers). *)
Inductive number : Type :=
| NaN
| Infinity (negative : bool)
| Fin (q : Q).

#[local] Set Warnings "-register-all".

(** JSON data as the handlers see it.  An object keeps its properties in
    insertion order, the order [res.json] serialises them in. *)
Inductive value : Type :=
| VUndef
| VNull
| VBool (b : bool)
| VNum (n : number)
| VStr (s : string)
| VArr (items : list value)
| VObj (props : list (string * value)).

(** What a handler can throw or pass to [next].  The first five are the
    classes of [expressError.js]; the next two are raised by the language
    itself; [Thrown] is any other rejection of a collaborator. *)
Inductive error : Type :=
| BadRequestError (message : value)
| UnauthorizedError (message : value)
| ForbiddenError (message : value)
| NotFoundError (message : value)
| ConflictError (message : value)
| ReferenceError (message : string)
| TypeError (message : string)
| Thrown (reason : value).

Inductive result (A : Type) : Type :=
| Ok (a : A)
| Throw (e : error).
Arguments Ok {A} a.
Arguments Throw {A} e.

Definition num_of_nat (n : nat) : number := Fin (inject_Z (Z.of_nat n)).

(** [a < b] on Numbers: false as soon as one side is NaN. *)
Definition num_lt (a b : number) : bool :=
  match a, b with
  | NaN, _ | _, NaN => false
  | Infinity true, Infinity true => false
  | Infinity true, _ => true
  | Infinity false, _ => false
  | Fin _, Infinity neg => negb neg
  | Fin x, Fin y => negb (Qle_bool y x)
  end.

(** ToBoolean. *)
Definition truthy (v : value) : bool :=
  match v with
  | VUndef | VNull => false
  | VBool b => b
  | VNum NaN => false
  | VNum (Infinity _) => true
  | VNum (Fin q) => negb (Qeq_bool q 0)
  | VStr s => negb (String.eqb s "")
  | VArr _ | VObj _ => true
  end.

Fixpoint assoc {A : Type} (k : string) (l : list (string * A)) : option A :=
  match l with
  | [] => None
  | (k', v) :: rest => if String.eqb k k' then Some v else assoc k rest
  end.

(** Assignment to a property: an existing key keeps its place, a new key
    goes last. *)
Fixpoint assign {A : Type} (k : string) (v : A) (l : list (string * A))
  : list (string * A) :=
  match l with
  | [] => [(k, v)]
  | (k', v') :: rest =>
      if String.eqb k k' then (k, v) :: rest else (k', v') :: assign k v rest
  end.

(** [o.k] for the property names the handlers read (none of them is an
    array index): a TypeError on undefined and null, the length of an
    array or a string, the own property of an object, undefined
    otherwise. *)
Definition get_prop (o : value) (k : string) : result value :=
  match o with
  | VUndef =>
      Throw (TypeError ("Cannot read properties of undefined (reading '" ++ k ++ "')"))
  | VNull =>
      Throw (TypeError ("Cannot read properties of null (reading '" ++ k ++ "')"))
  | VObj props =>
      match assoc k props with Some v => Ok v | None => Ok VUndef end
  | VArr items =>
      if String.eqb k "length" then Ok (VNum (num_of_nat (List.length items)))
      else Ok VUndef
  | VStr s =>
      if String.eqb k "length" then Ok (VNum (num_of_nat (String.length s)))
      else Ok VUndef
  | VBool _ | VNum _ => Ok VUndef
  end.

(** [o.k = v] in strict mode, returning the object after the assignment.
    A property set on an array under a name that is not an index is not
    part of its JSON form. *)
Definition set_prop (o : value) (k : string) (v : value) : result value :=
  match o with
  | VObj props => Ok (VObj (assign k v props))
  | VArr items => Ok (VArr items)
  | VUndef =>
      Throw (TypeError ("Cannot set properties of undefined (setting '" ++ k ++ "')"))
  | VNull =>
      Throw (TypeError ("Cannot set properties of null (setting '" ++ k ++ "')"))
  | VBool _ | VNum _ | VStr _ =>
      Throw (TypeError ("Cannot create property '" ++ k ++ "'"))
  end.

(** [v !== undefined && v !== null]. *)
Definition is_set (v : value) : bool :=
  match v with
  | VUndef | VNull => false
  | _ => true
  end.

(** The parts of the language the handlers use and this development does
    not define: ToString on a value, StringToNumber, and the properties of
    the global object, where an identifier that no enclosing scope
    declares is looked up. *)
Class Runtime : Type := {
  ToString : value -> string;
  StringToNumber : string -> number;
  globalThis : list (string * value)
}.

Section WithRuntime.
Context {rt : Runtime}.

(** ToNumber; an array or object goes through its string form. *)
Definition ToNumber (v : value) : number :=
  match v with
  | VUndef => NaN
  | VNull => Fin 0
  | VBool b => if b then Fin 1 else Fin 0
  | VNum n => n
  | VStr s => StringToNumber s
  | VArr _ | VObj _ => StringToNumber (ToString v)
  end.

(** [a > n] for a numeric literal [n]. *)
Definition gt_num (a : value) (n : number) : bool := num_lt n (ToNumber a).

(** Reading an identifier that is bound in no enclosing scope. *)
Definition free_identifier (name : string) : result value :=
  match assoc name globalThis with
  | Some v => Ok v
  | None => Throw (ReferenceError (name ++ " is not defined"))
  end.
End WithRuntime.

End Js.
Import Js.

(** ** Requests, responses and effects *)

(** The identity that the token middleware decoded and left in
    [res.locals.user]. *)
Record identity : Type := {
  id_username : string;
  id_isAdmin : bool
}.

Record request : Type := {
  params : list (string * string);
  body : value;
  locals_user : option identity
}.

(** [req.params.k]. *)
Definition param (req : request) (k : string) : value :=
  match assoc k (params req) with
  | Some s => VStr s
  | None => VUndef
  end.

(** How a handler ends: [res.status(s).json(b)] ([res.json] alone answers
    200), or [next(err)]. *)
Inductive outcome : Type :=
| Responded (status : nat) (payload : value)
| Next (err : error).

(** The calls a handler makes to the model and to the catalog, in the
    order it makes them. *)
Inductive call : Type :=
| CallRegister (data : value)
| CallFindAll
| CallGet (username : value)
| CallAuthenticate (username password : value)
| CallUpdate (username data : value)
| CallRemove (username : value)
| CallAddToUserLib (userId workId : value)
| CallAxiosGet (url : string).

Record state (W : Type) : Type := {
  world : W;
  calls : list call
}.
Arguments world {W} s.
Arguments calls {W} s.

Definition start {W : Type} (w : W) : state W := {| world := w; calls := [] |}.

(** Computations that read and change the world, log their calls and may
    throw. *)
Definition M (W A : Type) : Type := state W -> result A * state W.

Definition ret {W A : Type} (a : A) : M W A := fun st => (Ok a, st).

Definition bind {W A B : Type} (m : M W A) (k : A -> M W B) : M W B :=
  fun st =>
    match m st with
    | (Ok a, st') => k a st'
    | (Throw e, st') => (Throw e, st')
    end.

Definition throw {W A : Type} (e : error) : M W A := fun st => (Throw e, st).

(** A synchronous expression that may throw. *)
Definition lift {W A : Type} (r : result A) : M W A := fun st => (r, st).

(** [await f(...)]: the call is logged, then acts on the world. *)
Definition await {W A : Type} (c : call) (f : W -> result A * W) : M W A :=
  fun st =>
    let (r, w') := f (world st) in
    (r, {| world := w'; calls := calls st ++ [c] |}).

Declare Scope js_scope.
Delimit Scope js_scope with js.
Notation "x <- m ;; k" := (bind m (fun x => k))
  (at level 100, m at next level, right associativity) : js_scope.
Notation "m ;; k" := (bind m (fun _ => k))
  (at level 100, right associativity) : js_scope.
Local Open Scope js_scope.

(** [try { body } catch (err) { return next(err); }] around a body that
    returns what it answered. *)
Definition try_next {W : Type} (m : M W outcome) : state W -> outcome * state W :=
  fun st =>
    match m st with
    | (Ok o, st') => (o, st')
    | (Throw err, st') => (Next err, st')
    end.

(** [for (let x of items) body]: the items after the body ran on each of
    them in turn; a throw leaves the loop. *)
Fixpoint for_of {W : Type} (items : list value) (body : value -> M W value)
  : M W (list value) :=
  match items with
  | [] => ret []
  | x :: rest =>
      x' <- body x ;;
      rest' <- for_of rest body ;;
      ret (x' :: rest')
  end.

(** What [for ... of] iterates over: the elements of an array, the
    characters of a string; nothing else among JSON data is iterable. *)
Definition iterate (v : value) : result (list value) :=
  match v with
  | VArr items => Ok items
  | VStr s => Ok (map (fun c => VStr (String c "")) (list_ascii_of_string s))
  | _ => Throw (TypeError "user.works is not iterable")
  end.

(** The collection after its elements were mutated in place (the
    characters of a string are primitives and cannot be). *)
Definition iterated (v : value) (items' : list value) : value :=
  match v with
  | VArr _ => VArr items'
  | _ => v
  end.

(** The object [o] after the value its property [k] refers to was mutated
    into [v]. *)
Definition mutated (o : value) (k : string) (v : value) : value :=
  match o with
  | VObj props => VObj (assign k v props)
  | _ => o
  end.

(** ** The required modules *)

(** The two schemas of [schemas/]. *)
Inductive schema : Type := userNewSchema | userUpdateSchema.

Record ValidationError : Type := { stack : string }.

Record ValidatorResult : Type := {
  valid : bool;
  errors : list ValidationError
}.

(** [jsonschema], [axios], [models/user] and [helpers/tokens], none of
    which is part of the router: [W] is whatever they keep (the database,
    the catalog service). *)
Class Imports (W : Type) : Type := {
  jsonschema_validate : value -> schema -> ValidatorResult;
  axios_get : string -> W -> result value * W;
  User_register : value -> W -> result value * W;
  User_findAll : W -> result value * W;
  User_get : value -> W -> result value * W;
  User_authenticate : value -> value -> W -> result value * W;
  User_update : value -> value -> W -> result value * W;
  User_remove : value -> W -> result value * W;
  User_addToUserLib : value -> value -> W -> result value * W;
  createToken : value -> result value
}.

(** The two guards of [middleware/auth]: each lets the request through or
    passes an error to [next]. *)
Class Middleware : Type := {
  ensureAdmin : request -> result unit;
  ensureCorrectUserOrAdmin : request -> result unit
}.

(** ** The handlers of routes/users.js *)

Definition url : string := "https://api.openopus.org".

Section Handlers.
Context {rt : Runtime} {W : Type} {imports : Imports W}.

(** The check every body-taking handler starts with: the validator's
    error stacks go into a BadRequestError. *)
Definition check_schema (data : value) (s : schema) : M W unit :=
  let validator := jsonschema_validate data s in
  if negb (valid validator) then
    let errs := map (fun e => VStr (stack e)) (errors validator) in
    throw (BadRequestError (VArr errs))
  else ret tt.

(** POST / *)
Definition post_root (req : request) : state W -> outcome * state W :=
  try_next (
    check_schema (body req) userNewSchema ;;
    user <- await (CallRegister (body req)) (User_register (body req)) ;;
    token <- lift (createToken user) ;;
    ret (Responded 201 (VObj [("user", user); ("token", token)]))).

(** GET / *)
Definition get_root (req : request) : state W -> outcome * state W :=
  try_next (
    users <- await CallFindAll User_findAll ;;
    ret (Responded 200 (VObj [("users", users)]))).

(** The body of the loop of GET /:username.  The identifier [api_id] in
    the lookup address is declared nowhere in the module. *)
Definition enrich (work : value) : M W value :=
  api_id <- lift (get_prop work "api_id") ;;
  if is_set api_id then
    free <- lift (free_identifier "api_id") ;;
    let address := (url ++ "/work/detail/" ++ ToString free ++ ".json")%string in
    outsideWork <- await (CallAxiosGet address) (axios_get address) ;;
    outside_work <- lift (get_prop outsideWork "work") ;;
    title <- lift (get_prop outside_work "title") ;;
    work1 <- lift (set_prop work "title" title) ;;
    outside_composer <- lift (get_prop outsideWork "composer") ;;
    complete_name <- lift (get_prop outside_composer "complete_name") ;;
    lift (set_prop work1 "composer" complete_name)
  else ret work.

(** [user.works && user.works.length > 1] *)
Definition more_than_one (works : value) : M W bool :=
  if truthy works then
    len <- lift (get_prop works "length") ;;
    ret (gt_num len (Fin 1))
  else ret false.

(** GET /:username *)
Definition get_username (req : request) : state W -> outcome * state W :=
  try_next (
    user <- await (CallGet (param req "username"))
                  (User_get (param req "username")) ;;
    works <- lift (get_prop user "works") ;;
    guard <- more_than_one works ;;
    user' <- (if guard : bool then
                items <- lift (iterate works) ;;
                items' <- for_of items enrich ;;
                ret (mutated user "works" (iterated works items'))
              else ret user) ;;
    ret (Responded 200 (VObj [("user", user')]))).

(** PATCH /:username *)
Definition patch_username (req : request) : state W -> outcome * state W :=
  try_next (
    check_schema (body req) userUpdateSchema ;;
    password <- lift (get_prop (body req) "password") ;;
    isValid <- await (CallAuthenticate (param req "username") password)
                     (User_authenticate (param req "username") password) ;;
    if truthy isValid then
      user <- await (CallUpdate (param req "username") (body req))
                    (User_update (param req "username") (body req)) ;;
      ret (Responded 200 (VObj [("user", user)]))
    else throw (UnauthorizedError (VStr "Bad password"))).

(** DELETE /:username *)
Definition delete_username (req : request) : state W -> outcome * state W :=
  try_next (
    await (CallRemove (param req "username"))
          (User_remove (param req "username")) ;;
    ret (Responded 200 (VObj [("deleted", param req "username")]))).

(** POST /:id/userLib/:workId; the unary plus turns both parameters into
    Numbers. *)
Definition post_userLib (req : request) : state W -> outcome * state W :=
  let userId := VNum (ToNumber (param req "id")) in
  let workId := VNum (ToNumber (param req "workId")) in
  try_next (
    await (CallAddToUserLib userId workId) (User_addToUserLib userId workId) ;;
    ret (Responded 200 (VObj [("added", param req "workId")]))).

(** ** The router *)

(** A route: the guard first; when it passes an error to [next] the
    handler does not run. *)
Definition route (guard : request -> result unit)
    (handler : request -> state W -> outcome * state W)
    (req : request) (w : W) : outcome * state W :=
  match guard req with
  | Ok _ => handler req (start w)
  | Throw err => (Next err, start w)
  end.

Context {auth : Middleware}.

Definition POST_root := route ensureAdmin post_root.
Definition GET_root := route ensureAdmin get_root.
Definition GET_username := route ensureCorrectUserOrAdmin get_username.
Definition PATCH_username := route ensureCorrectUserOrAdmin patch_username.
Definition DELETE_username := route ensureCorrectUserOrAdmin delete_username.
Definition POST_userLib := route ensureCorrectUserOrAdmin post_userLib.
End Handlers.

(** ** What a run shows *)

Definition is_lookup (c : call) : bool :=
  match c with CallAxiosGet _ => true | _ => false end.

Definition is_authenticate (c : call) : bool :=
  match c with CallAuthenticate _ _ => true | _ => false end.

Definition is_update (c : call) : bool :=
  match c with CallUpdate _ _ => true | _ => false end.

(** Modelled from the spec: the statuses of the classes of
    expressError.js, which is not among the sources: 400 validation, 401
    unauthenticated, 403 forbidden, 404 not found, 409 conflict. *)
Definition status_of (e : error) : option nat :=
  match e with
  | BadRequestError _ => Some 400
  | UnauthorizedError _ => Some 401
  | ForbiddenError _ => Some 403
  | NotFoundError _ => Some 404
  | ConflictError _ => Some 409
  | ReferenceError _ | TypeError _ | Thrown _ => None
  end.

(** The error stacks of a validation, as the handlers wrap them. *)
Definition stacks (v : ValidatorResult) : value :=
  VArr (map (fun e => VStr (stack e)) (errors v)).

(** ** The guards of middleware/auth *)

Module Auth.

(** Modelled from the spec: [ensureAdmin] of middleware/auth.js, which is
    not among the sources.  AdminOnly allows if [identity.isAdmin] is
    true, else fails with Forbidden; no decoded identity at all fails
    earlier, with Unauthorized. *)
Definition AdminOnly (req : request) : result unit :=
  match locals_user req with
  | None => Throw (UnauthorizedError VUndef)
  | Some who =>
      if id_isAdmin who then Ok tt else Throw (ForbiddenError VUndef)
  end.

(** Modelled from the spec: [ensureCorrectUserOrAdmin] of
    middleware/auth.js, which is not among the sources.  SelfOrAdmin
    allows if [identity.isAdmin] is true or [identity.username] is the
    username of the route, else fails with Forbidden; no decoded identity
    at all fails earlier, with Unauthorized. *)
Definition SelfOrAdmin (req : request) : result unit :=
  match locals_user req with
  | None => Throw (UnauthorizedError VUndef)
  | Some who =>
      let self :=
        match assoc "username" (params req) with
        | Some routeUsername => String.eqb (id_username who) routeUsername
        | None => false
        end in
      if id_isAdmin who || self then Ok tt else Throw (ForbiddenError VUndef)
  end.

Definition guards : Middleware :=
  {| ensureAdmin := AdminOnly; ensureCorrectUserOrAdmin := SelfOrAdmin |}.

End Auth.

(** ** The user directory of models/user *)

Module Directory.

Record user_record : Type := {
  uid : nat;
  username : string;
  name : string;
  email : string;
  passwordHash : string;
  isAdmin : bool
}.

Record work_record : Type := {
  wid : nat;
  externalId : value
}.

Record library_entry : Type := {
  owner : nat;
  work : nat;
  annotations : list (string * value)
}.

Record db : Type := {
  users : list user_record;
  works : list work_record;
  library : list library_entry;
  next_id : nat
}.

(** Modelled from the spec: the Credential Store behind models/user.js,
    which is not among the sources: [hash] is salted, [verify] answers
    with a boolean. *)
Class CredentialStore : Type := {
  hash : nat -> string -> string;
  verify : string -> string -> bool
}.

Record new_user : Type := {
  nu_username : string;
  nu_name : string;
  nu_email : string;
  nu_password : string;
  nu_isAdmin : bool
}.

Definition string_field (data : value) (k : string) : option string :=
  match get_prop data k with
  | Ok (VStr s) => Some s
  | _ => None
  end.

Definition flag (data : value) (k : string) : bool :=
  match get_prop data k with
  | Ok v => truthy v
  | Throw _ => false
  end.

(** The new-user shape: four strings and an optional flag. *)
Definition parse_new_user (data : value) : option new_user :=
  match string_field data "username", string_field data "name",
        string_field data "email", string_field data "password" with
  | Some u, Some n, Some e, Some p =>
      Some {| nu_username := u; nu_name := n; nu_email := e;
              nu_password := p; nu_isAdmin := flag data "isAdmin" |}
  | _, _, _, _ => None
  end.

(** A user as it is sent out: no password material. *)
Definition public (u : user_record) : list (string * value) :=
  [("id", VNum (num_of_nat (uid u)));
   ("username", VStr (username u));
   ("name", VStr (name u));
   ("email", VStr (email u));
   ("isAdmin", VBool (isAdmin u))].

Definition has_username (n : string) (u : user_record) : bool :=
  String.eqb (username u) n.

Definition has_email (e : string) (u : user_record) : bool :=
  String.eqb (email u) e.

Definition is_nat (v : value) (n : nat) : bool :=
  match v with
  | VNum (Fin q) => Qeq_bool q (inject_Z (Z.of_nat n))
  | _ => false
  end.

Section WithCredentials.
Context {credentials : CredentialStore}.

(** Modelled from the spec: [User.register] of models/user.js, which is
    not among the sources.  It validates the shape, enforces the
    uniqueness of username and email (Conflict), hashes the password and
    persists the record; a malformed input is a ValidationError. *)
Definition register (data : value) (d : db) : result value * db :=
  match parse_new_user data with
  | None => (Throw (BadRequestError (VStr "malformed input")), d)
  | Some nu =>
      if existsb (has_username (nu_username nu)) (users d) then
        (Throw (ConflictError (VStr "Duplicate username")), d)
      else if existsb (has_email (nu_email nu)) (users d) then
        (Throw (ConflictError (VStr "Duplicate email")), d)
      else
        let u := {| uid := next_id d;
                    username := nu_username nu;
                    name := nu_name nu;
                    email := nu_email nu;
                    passwordHash := hash (next_id d) (nu_password nu);
                    isAdmin := nu_isAdmin nu |} in
        (Ok (VObj (public u)),
         {| users := users d ++ [u]; works := works d;
            library := library d; next_id := S (next_id d) |})
  end.

(** Modelled from the spec: [User.findAll] of models/user.js, which is
    not among the sources: all users, without password material. *)
Definition findAll (d : db) : result value * db :=
  (Ok (VArr (map (fun u => VObj (public u)) (users d))), d).

Definition find_user (n : value) (d : db) : option user_record :=
  match n with
  | VStr n => find (has_username n) (users d)
  | _ => None
  end.

(** The row of a library entry: the work's id and external id, then the
    user's annotations; title and composer are not kept locally. *)
Definition entry_row (d : db) (e : library_entry) : value :=
  let api_id :=
    match find (fun w => Nat.eqb (wid w) (work e)) (works d) with
    | Some w => externalId w
    | None => VNull
    end in
  VObj ([("id", VNum (num_of_nat (work e))); ("api_id", api_id)]
        ++ annotations e).

(** Modelled from the spec: [User.get] of models/user.js, which is not
    among the sources: the user plus their library entries, NotFound if
    the username does not exist. *)
Definition get (n : value) (d : db) : result value * db :=
  match find_user n d with
  | None => (Throw (NotFoundError (VStr "No user")), d)
  | Some u =>
      let rows :=
        map (entry_row d)
            (filter (fun e => Nat.eqb (owner e) (uid u)) (library d)) in
      (Ok (VObj (public u ++ [("works", VArr rows)])), d)
  end.

(** Modelled from the spec: [User.authenticate] of models/user.js, which
    is not among the sources: whether the password verifies against the
    stored hash; it fails closed. *)
Definition authenticate (n password : value) (d : db) : result value * db :=
  match find_user n d, password with
  | Some u, VStr p => (Ok (VBool (verify p (passwordHash u))), d)
  | _, _ => (Ok (VBool false), d)
  end.

Definition set_profile (data : value) (u : user_record) : user_record :=
  {| uid := uid u;
     username := username u;
     name := match string_field data "name" with Some n => n | None => name u end;
     email := match string_field data "email" with Some e => e | None => email u end;
     passwordHash := passwordHash u;
     isAdmin := isAdmin u |}.

(** Modelled from the spec: [User.update] of models/user.js, which is
    not among the sources: the field changes (name, email) once the
    caller has re-verified the password. *)
Definition update (n data : value) (d : db) : result value * db :=
  match find_user n d with
  | None => (Throw (NotFoundError (VStr "No user")), d)
  | Some u =>
      let u' := set_profile data u in
      (Ok (VObj (public u')),
       {| users := map (fun x => if Nat.eqb (uid x) (uid u) then u' else x) (users d);
          works := works d; library := library d; next_id := next_id d |})
  end.

(** Modelled from the spec: [User.remove] of models/user.js, which is
    not among the sources: deletes the user and all of that user's
    library entries, NotFound if already absent. *)
Definition remove (n : value) (d : db) : result value * db :=
  match find_user n d with
  | None => (Throw (NotFoundError (VStr "No user")), d)
  | Some u =>
      (Ok VUndef,
       {| users := filter (fun x => negb (Nat.eqb (uid x) (uid u))) (users d);
          works := works d;
          library := filter (fun e => negb (Nat.eqb (owner e) (uid u))) (library d);
          next_id := next_id d |})
  end.

(** Modelled from the spec: [User.addToUserLib] of models/user.js, which
    is not among the sources: creates the entry for (user, work), with
    Conflict when it exists already and NotFound when the user or the
    work does not exist. *)
Definition addToUserLib (userId workId : value) (d : db) : result value * db :=
  match find (fun u => is_nat userId (uid u)) (users d),
        find (fun w => is_nat workId (wid w)) (works d) with
  | Some u, Some w =>
      if existsb (fun e => Nat.eqb (owner e) (uid u) && Nat.eqb (work e) (wid w))
                 (library d)
      then (Throw (ConflictError (VStr "Already in the library")), d)
      else
        (Ok VUndef,
         {| users := users d; works := works d;
            library := library d ++
              [{| owner := uid u; work := wid w; annotations := [] |}];
            next_id := next_id d |})
  | _, _ => (Throw (NotFoundError (VStr "No user or no work")), d)
  end.

(** The router's imports over this directory; the validator, the
    catalog and the token service stay parameters. *)
Definition imports
    (validate : value -> schema -> ValidatorResult)
    (catalog : string -> result value)
    (issue : value -> result value) : Imports db :=
  {| jsonschema_validate := validate;
     axios_get := fun address d => (catalog address, d);
     User_register := register;
     User_findAll := findAll;
     User_get := get;
     User_authenticate := authenticate;
     User_update := update;
     User_remove := remove;
     User_addToUserLib := addToUserLib;
     createToken := issue |}.
End WithCredentials.

End Directory.


(** ** A small installation to run the handlers on *)

Module Demo.
Import Directory.

(** ToString, exact on the data of the examples: strings, booleans, null,
    undefined, integers, and arrays and objects of them. *)
Fixpoint show (v : value) : string :=
  match v with
  | VUndef => "undefined"
  | VNull => "null"
  | VBool true => "true"
  | VBool false => "false"
  | VNum NaN => "NaN"
  | VNum (Infinity false) => "Infinity"
  | VNum (Infinity true) => "-Infinity"
  | VNum (Fin q) => NilZero.string_of_int (Z.to_int (Qnum q))
  | VStr s => s
  | VArr items =>
      String.concat ","
        (map (fun x => match x with VUndef | VNull => "" | _ => show x end) items)
  | VObj _ => "[object Object]"
  end.

(** StringToNumber, exact on decimal integer literals and the empty
    string. *)
Definition read (s : string) : number :=
  match s with
  | "" => Fin 0
  | _ =>
      match NilEmpty.int_of_string s with
      | Some i => Fin (inject_Z (Z.of_int i))
      | None => NaN
      end
  end.

(** The runtime of the server: its global object has no [api_id]. *)
Definition node : Runtime :=
  {| ToString := show; StringToNumber := read; globalThis := [] |}.

(** A runtime in which some other script has defined a global [api_id]. *)
Definition node_with_global : Runtime :=
  {| ToString := show; StringToNumber := read;
     globalThis := [("api_id", VNum (Fin 7))] |}.

Fixpoint after_dollar (h : string) : string :=
  match h with
  | EmptyString => EmptyString
  | String c rest => if Ascii.eqb c "$" then rest else after_dollar rest
  end.

(** A stand-in for the credential store: the salt, a dollar sign, the
    password. *)
Definition plain : CredentialStore :=
  {| hash := fun salt p =>
       (NilZero.string_of_uint (Nat.to_uint salt) ++ "$" ++ p)%string;
     verify := fun p h => String.eqb (after_dollar h) p |}.

Definition optional_string (data : value) (k : string) : bool :=
  match get_prop data k with
  | Ok VUndef | Ok (VStr _) => true
  | _ => false
  end.

(** A stand-in for the validator: a new user needs its four strings, an
    update needs a string password and takes a string name and a string
    email. *)
Definition validate (data : value) (s : schema) : ValidatorResult :=
  match s with
  | userNewSchema =>
      match parse_new_user data with
      | Some _ => {| valid := true; errors := [] |}
      | None =>
          {| valid := false;
             errors := [{| stack := "instance is not a new user" |}] |}
      end
  | userUpdateSchema =>
      match string_field data "password" with
      | Some _ =>
          if optional_string data "name" && optional_string data "email" then
            {| valid := true; errors := [] |}
          else
            {| valid := false;
               errors := [{| stack := "instance is not of a type(s) string" |}] |}
      | None =>
          {| valid := false;
             errors := [{| stack := "instance requires property 'password'" |}] |}
      end
  end.

Definition issue (user : value) : result value :=
  match get_prop user "username" with
  | Ok (VStr n) => Ok (VStr ("token:" ++ n))
  | Ok _ => Throw (Thrown (VStr "no username"))
  | Throw e => Throw e
  end.

(** The catalog when it answers: the same work for every address. *)
Definition catalog_up (address : string) : result value :=
  Ok (VObj [("work", VObj [("title", VStr "Goldberg Variations")]);
            ("composer", VObj [("complete_name", VStr "Johann Sebastian Bach")])]).

(** The catalog when it is down. *)
Definition catalog_down (address : string) : result value :=
  Throw (Thrown (VStr "ECONNREFUSED")).

Definition up : Imports db := imports (credentials := plain) validate catalog_up issue.
Definition down : Imports db := imports (credentials := plain) validate catalog_down issue.

Definition root : user_record :=
  {| uid := 0; username := "root"; name := "Root"; email := "root@x.com";
     passwordHash := "0$secret"; isAdmin := true |}.

Definition alice : user_record :=
  {| uid := 1; username := "alice"; name := "Alice"; email := "a@x.com";
     passwordHash := "1$pw123"; isAdmin := false |}.

Definition carol : user_record :=
  {| uid := 2; username := "carol"; name := "Carol"; email := "c@x.com";
     passwordHash := "2$pw456"; isAdmin := false |}.

(** Alice has one entry, Carol three, Root none; works 41 and 42 have an
    external id, work 43 has none. *)
Definition store : db :=
  {| users := [root; alice; carol];
     works := [{| wid := 41; externalId := VNum (Fin 1756) |};
               {| wid := 42; externalId := VNum (Fin 1757) |};
               {| wid := 43; externalId := VNull |}];
     library := [{| owner := 1; work := 42; annotations := [("owned", VBool true)] |};
                 {| owner := 2; work := 43; annotations := [] |};
                 {| owner := 2; work := 41; annotations := [] |};
                 {| owner := 2; work := 42; annotations := [] |}];
     next_id := 3 |}.

Definition as_user (u : user_record) : option identity :=
  Some {| id_username := username u; id_isAdmin := isAdmin u |}.

Definition request_for (who : user_record) (routeUsername : string) (data : value)
  : request :=
  {| params := [("username", routeUsername)]; body := data;
     locals_user := as_user who |}.

(** What [User.get] returns for Alice and for Carol. *)
Definition alice_entry : value :=
  VObj [("id", VNum (Fin 42)); ("api_id", VNum (Fin 1757)); ("owned", VBool true)].

Definition alice_view : value :=
  VObj (public alice ++ [("works", VArr [alice_entry])]).

Definition carol_entries : list value :=
  [VObj [("id", VNum (Fin 43)); ("api_id", VNull)];
   VObj [("id", VNum (Fin 41)); ("api_id", VNum (Fin 1756))];
   VObj [("id", VNum (Fin 42)); ("api_id", VNum (Fin 1757))]].

Definition carol_view : value :=
  VObj (public carol ++ [("works", VArr carol_entries)]).

Definition lookup_address : string :=
  "https://api.openopus.org/work/detail/7.json".

(** Bodies for PATCH /alice: a wrong password, and a wrong password in a
    body that the schema refuses as well. *)
Definition wrong_password : value :=
  VObj [("name", VStr "Al"); ("password", VStr "guess")].

Definition malformed_update : value :=
  VObj [("name", VNum (Fin 5)); ("password", VStr "guess")].

(** Bodies for POST /: Bob, and a second Bob under another email. *)
Definition bob : value :=
  VObj [("username", VStr "bob"); ("name", VStr "Bob");
        ("email", VStr "b@x.com"); ("password", VStr "pw123")].

Definition bob_again : value :=
  VObj [("username", VStr "bob"); ("name", VStr "Robert");
        ("email", VStr "r@x.com"); ("password", VStr "pw789")].

Definition bob_record : user_record :=
  {| uid := 3; username := "bob"; name := "Bob"; email := "b@x.com";
     passwordHash := "3$pw123"; isAdmin := false |}.

Definition store_with_bob : db :=
  {| users := users store ++ [bob_record]; works := works store;
     library := library store; next_id := 4 |}.

Definition add_request : request :=
  {| params := [("id", "1"); ("workId", "41")]; body := VObj [];
     locals_user := as_user root |}.

End Demo.


(** ** Reading the entries of a library *)

(** Whether an entry carries an external id, as the loop of GET /:username
    tests it. *)
Definition has_external_id (work : value) : bool :=
  match get_prop work "api_id" with
  | Ok api_id => is_set api_id
  | Throw _ => false
  end.

(** The address every lookup of a run is sent to, given the value the
    identifier [api_id] resolves to. *)
Definition address_of {rt : Runtime} (free : value) : string :=
  url ++ "/work/detail/" ++ ToString free ++ ".json".

(** Every lookup among [cs] went to the address of the global [api_id];
    without such a global there is none. *)
Definition lookups_at_global {rt : Runtime} (cs : list call) : Prop :=
  forall c, In c cs -> is_lookup c = true ->
    match assoc "api_id" globalThis with
    | Some free => c = CallAxiosGet (address_of free)
    | None => False
    end.

(** An entry after the two assignments of the loop body. *)
Definition with_title_and_composer (title composer work : value) : value :=
  match work with
  | VObj props => VObj (assign "composer" composer (assign "title" title props))
  | _ => work
  end.

(** An entry after the loop body ran on it with an answering catalog. *)
Definition enriched (title composer work : value) : value :=
  if has_external_id work then with_title_and_composer title composer work
  else work.

(** ** The forms of the frontend *)

Module Frontend.

(** [evt.target] of a change event: the name of the input and what it
    holds. *)
Record change_event : Type := {
  target_name : string;
  target_value : string
}.

(** What an event handler returns: nothing, or the paragraph element that
    [Signup.handleSubmit] builds in its [catch]. *)
Inductive returned : Type :=
| Nothing
| Paragraph (text : string).

(** What the handlers do besides computing, in the order they do it. *)
Inductive effect : Type :=
| PreventDefault
| CallSignup (data : value)
| CallUpdateUser (username data : value)
| CallDeleteUser (username : value)
| SetFormData (data : list (string * value))
| LocalStorageClear
| SetCurrentUser (user : value)
| HistoryPush (path : string).

(** The page a component lives in: the server behind the API, the state
    of the form, the user of the context, the local storage, the history
    stack (latest entry last) and the effects so far. *)
Record page (S : Type) : Type := {
  server : S;
  formData : list (string * value);
  currentUser : value;
  localStorage : list (string * string);
  history : list string;
  effects : list effect
}.
Arguments server {S} p.
Arguments formData {S} p.
Arguments currentUser {S} p.
Arguments localStorage {S} p.
Arguments history {S} p.
Arguments effects {S} p.

(** The [signup] property of [Signup] and the two calls of [MyMusicApi]
    that [User] makes; api.js is not part of the components. *)
Class Api (S : Type) : Type := {
  signup : value -> S -> result value * S;
  updateUser : value -> value -> S -> result value * S;
  deleteUser : value -> S -> result value * S
}.

Section Components.
Context {S : Type} {api : Api S}.

Definition log (e : effect) (p : page S) : page S :=
  {| server := server p; formData := formData p; currentUser := currentUser p;
     localStorage := localStorage p; history := history p;
     effects := effects p ++ [e] |}.

(** [setFormData(data)]. *)
Definition setFormData (data : list (string * value)) (p : page S) : page S :=
  {| server := server p; formData := data; currentUser := currentUser p;
     localStorage := localStorage p; history := history p;
     effects := effects p ++ [SetFormData data] |}.

(** [await f(...)] on the server; the call is logged. *)
Definition await_api (e : effect) (f : S -> result value * S) (p : page S)
  : result value * page S :=
  let (r, s') := f (server p) in
  (r, {| server := s'; formData := formData p; currentUser := currentUser p;
         localStorage := localStorage p; history := history p;
         effects := effects p ++ [e] |}).

(** [handleChange], the same in [Signup] and in [User]: the functional
    update [fData => ({...fData, [name]: value})].  The names of the
    inputs are not array indices, so a new key goes last. *)
Definition handleChange (evt : change_event) (p : page S) : page S :=
  setFormData (assign (target_name evt) (VStr (target_value evt)) (formData p)) p.

(** A sequence of change events, one after the other. *)
Definition typed (evts : list change_event) (p : page S) : page S :=
  fold_left (fun q evt => handleChange evt q) evts p.

(** [Signup]: the initial state of its form. *)
Definition Signup_initialState : list (string * value) :=
  [("username", VStr ""); ("name", VStr ""); ("password", VStr "");
   ("email", VStr "")].

(** [Signup.handleSubmit]: the [catch] returns a paragraph element to
    whoever called the handler. *)
Definition Signup_handleSubmit (p : page S) : result returned * page S :=
  let p := log PreventDefault p in
  match await_api (CallSignup (VObj (formData p))) (signup (VObj (formData p))) p with
  | (Ok _, p') => (Ok Nothing, setFormData Signup_initialState p')
  | (Throw err, p') => (Ok (Paragraph "Error, please try again."), p')
  end.

(** [User]: the initial state of its form, read from the user of the
    context. *)
Definition User_initialState (user : value) : result (list (string * value)) :=
  match get_prop user "firstName", get_prop user "lastName",
        get_prop user "email" with
  | Ok firstName, Ok lastName, Ok email =>
      Ok [("firstName", firstName); ("lastName", lastName); ("email", email);
          ("password", VStr "")]
  | Throw e, _, _ => Throw e
  | _, Throw e, _ => Throw e
  | _, _, Throw e => Throw e
  end.

(** [User.handleSubmit]: no [try], a rejection is the handler's. *)
Definition User_handleSubmit (p : page S) : result returned * page S :=
  match User_initialState (currentUser p) with
  | Throw e => (Throw e, p)
  | Ok initialState =>
      let p := log PreventDefault p in
      match get_prop (currentUser p) "username" with
      | Throw e => (Throw e, p)
      | Ok username =>
          match await_api (CallUpdateUser username (VObj (formData p)))
                        (updateUser username (VObj (formData p))) p with
          | (Ok _, p') => (Ok Nothing, setFormData initialState p')
          | (Throw e, p') => (Throw e, p')
          end
      end
  end.

(** [User.deleteClick]. *)
Definition User_deleteClick (p : page S) : result returned * page S :=
  let p := log PreventDefault p in
  match get_prop (currentUser p) "username" with
  | Throw e => (Throw e, p)
  | Ok username =>
      match await_api (CallDeleteUser username) (deleteUser username) p with
      | (Ok _, p') =>
          (Ok Nothing,
           {| server := server p'; formData := formData p';
              currentUser := VNull;
              localStorage := [];
              history := history p' ++ ["/"];
              effects := effects p' ++
                [LocalStorageClear; SetCurrentUser VNull; HistoryPush "/"] |})
      | (Throw e, p') => (Throw e, p')
      end
  end.

End Components.

End Frontend.

(** ** More of the small installation *)

Module Scenes.
Import Directory Demo.

(** A token service without its secret. *)
Definition issue_unconfigured (user : value) : result value :=
  Throw (Thrown (VStr "secretOrPrivateKey must have a value")).

Definition unconfigured : Imports db :=
  imports (credentials := plain) validate catalog_up issue_unconfigured.

(** A model whose [authenticate] rejects a wrong password instead of
    answering false. *)
Definition authenticate_or_reject (n password : value) (d : db)
  : result value * db :=
  match authenticate (credentials := plain) n password d with
  | (Ok (VBool true), d') => (Ok (VBool true), d')
  | (_, d') => (Throw (UnauthorizedError (VStr "Invalid username/password")), d')
  end.

Definition rejecting : Imports db :=
  {| jsonschema_validate := validate;
     axios_get := fun address d => (catalog_up address, d);
     User_register := register (credentials := plain);
     User_findAll := findAll;
     User_get := get;
     User_authenticate := authenticate_or_reject;
     User_update := update;
     User_remove := remove;
     User_addToUserLib := addToUserLib;
     createToken := issue |}.

(** The catalog answering the way axios wraps an answer: the payload
    under [data]. *)
Definition catalog_axios (address : string) : result value :=
  Ok (VObj [("data",
            VObj [("work", VObj [("title", VStr "Goldberg Variations")]);
                  ("composer",
                   VObj [("complete_name", VStr "Johann Sebastian Bach")])]);
            ("status", VNum (Fin 200))]).

Definition wrapped : Imports db :=
  imports (credentials := plain) validate catalog_axios issue.

Definition dave : user_record :=
  {| uid := 4; username := "dave"; name := "Dave"; email := "d@x.com";
     passwordHash := "4$pw000"; isAdmin := false |}.

(** Dave's two works have no external id. *)
Definition store_plain : db :=
  {| users := [dave];
     works := [{| wid := 43; externalId := VNull |};
               {| wid := 44; externalId := VNull |}];
     library := [{| owner := 4; work := 43; annotations := [] |};
                 {| owner := 4; work := 44; annotations := [("played", VBool true)] |}];
     next_id := 5 |}.

Definition dave_view : value :=
  VObj (public dave ++
        [("works",
          VArr [VObj [("id", VNum (Fin 43)); ("api_id", VNull)];
                VObj [("id", VNum (Fin 44)); ("api_id", VNull);
                      ("played", VBool true)]])]).

Definition right_password : value :=
  VObj [("name", VStr "Al"); ("password", VStr "pw123")].

Definition alice_renamed : user_record :=
  {| uid := 1; username := "alice"; name := "Al"; email := "a@x.com";
     passwordHash := "1$pw123"; isAdmin := false |}.

Definition store_renamed : db :=
  {| users := [root; alice_renamed; carol]; works := works store;
     library := library store; next_id := 3 |}.

Definition not_a_user : value := VObj [("username", VStr "eve")].

(** The server the forms talk to: the directory, through stand-ins for
    the calls of api.js. *)
Definition api : Frontend.Api db :=
  {| Frontend.signup := fun data d =>
       match register (credentials := plain) data d with
       | (Ok user, d') => (Ok VUndef, d')
       | (Throw e, d') => (Throw e, d')
       end;
     Frontend.updateUser := fun n data d =>
       match authenticate (credentials := plain) n
               (match get_prop data "password" with Ok v => v | Throw _ => VUndef end) d with
       | (Ok (VBool true), d') => update n data d'
       | (_, d') => (Throw (UnauthorizedError (VStr "Bad password")), d')
       end;
     Frontend.deleteUser := fun n d => remove n d |}.

Definition alice_context : value :=
  VObj [("username", VStr "alice"); ("name", VStr "Alice");
        ("email", VStr "a@x.com")].

Definition alice_form : list (string * value) :=
  [("firstName", VUndef); ("lastName", VUndef); ("email", VStr "a@x.com");
   ("password", VStr "")].

Definition profile_page (form : list (string * value)) : Frontend.page db :=
  {| Frontend.server := store; Frontend.formData := form;
     Frontend.currentUser := alice_context;
     Frontend.localStorage := [("token", "token:alice")];
     Frontend.history := ["/"; "/login"; "/user"];
     Frontend.effects := [] |}.

Definition signup_page (form : list (string * value)) : Frontend.page db :=
  {| Frontend.server := store; Frontend.formData := form;
     Frontend.currentUser := VNull;
     Frontend.localStorage := [];
     Frontend.history := ["/"; "/signup"];
     Frontend.effects := [] |}.

Definition change (n v : string) : Frontend.change_event :=
  {| Frontend.target_name := n; Frontend.target_value := v |}.

Definition signup_typing : list Frontend.change_event :=
  [change "username" "bob"; change "email" "b@x.com"; change "username" "bobby";
   change "password" "pw123"].

Definition profile_typing : list Frontend.change_event :=
  [change "password" "pw123"; change "name" "Al"; change "name" "Ali"].

Definition typed_profile : list (string * value) :=
  [("firstName", VUndef); ("lastName", VUndef); ("email", VStr "a@x.com");
   ("password", VStr "pw123"); ("name", VStr "Ali")].

Definition entry_41 : value :=
  VObj [("id", VNum (Fin 41)); ("api_id", VNum (Fin 1756))].

Definition entry_41_enriched : value :=
  VObj [("id", VNum (Fin 41)); ("api_id", VNum (Fin 1756));
        ("title", VStr "Goldberg Variations");
        ("composer", VStr "Johann Sebastian Bach")].

Definition answer : value :=
  VObj [("work", VObj [("title", VStr "Goldberg Variations")]);
        ("composer", VObj [("complete_name", VStr "Johann Sebastian Bach")])].

Definition wrapped_answer : value :=
  VObj [("data", answer); ("status", VNum (Fin 200))].

Definition missing_work_request : request :=
  {| params := [("id", "1"); ("workId", "99")]; body := VObj [];
     locals_user := as_user root |}.

End Scenes.

(** * Properties *)

(** ** The monad and the loop *)

Ltac step := cbn beta iota zeta delta [world calls fst snd negb app].

Ltac run :=
  unfold try_next, bind, await, lift, ret, throw, start in *;
  cbn [world calls fst snd] in *.

Ltac use H := rewrite H; step.

Lemma num_lt_one_nat (n : nat) :
  num_lt (Fin 1) (num_of_nat n) = Nat.ltb 1 n.
Proof.
  unfold num_lt, num_of_nat, Qle_bool, inject_Z; cbn [Qnum Qden].
  destruct (Nat.ltb_spec 1 n) as [Hlt | Hge];
    destruct (Z.leb_spec (Z.of_nat n * 1) (1 * 1)) as [Hz | Hz];
    try reflexivity; lia.
Qed.

Lemma bind_ok {W A B : Type} (m : M W A) (k : A -> M W B) st a st' :
  m st = (Ok a, st') -> bind m k st = k a st'.
Proof. intros H; unfold bind; rewrite H; reflexivity. Qed.

Lemma bind_throw {W A B : Type} (m : M W A) (k : A -> M W B) st e st' :
  m st = (Throw e, st') -> bind m k st = (Throw e, st').
Proof. intros H; unfold bind; rewrite H; reflexivity. Qed.

(** A throw in the body leaves the loop: the items after it are not
    visited. *)
Lemma for_of_throws {W : Type} (body : value -> M W value) :
  forall before x after before' st st1 e st2,
    for_of before body st = (Ok before', st1) ->
    body x st1 = (Throw e, st2) ->
    for_of (before ++ x :: after) body st = (Throw e, st2).
Proof.
  induction before as [| b before IH]; intros x after before' st st1 e st2 Hb Hx.
  - cbn in Hb. unfold ret in Hb. inversion Hb; subst.
    cbn [app for_of]. apply bind_throw; assumption.
  - cbn [app for_of] in *. unfold bind in Hb |- *.
    destruct (body b st) as [[b' | eb] stb]; [| discriminate].
    destruct (for_of before body stb) as [[r | er] str] eqn:Hrest; [| discriminate].
    unfold ret in Hb. inversion Hb; subst.
    rewrite (IH x after r stb st1 e st2 Hrest Hx). reflexivity.
Qed.

Section HandlerFacts.
Context {rt : Runtime} {W : Type} {imports : Imports W}.

Lemma more_than_one_array (items : list value) (st : state W) :
  more_than_one (VArr items) st = (Ok (Nat.ltb 1 (List.length items)), st).
Proof.
  unfold more_than_one; cbn [truthy get_prop String.eqb Ascii.eqb Bool.eqb].
  run. unfold gt_num; cbn [ToNumber]. rewrite num_lt_one_nat. reflexivity.
Qed.

Lemma more_than_one_unset (works : value) (st : state W) :
  is_set works = false -> more_than_one works st = (Ok false, st).
Proof. destruct works; cbn; intros H; try discriminate; reflexivity. Qed.

(** An entry without external id is left as it is, without any call. *)
Lemma enrich_unset (work api_id : value) (st : state W) :
  get_prop work "api_id" = Ok api_id -> is_set api_id = false ->
  enrich work st = (Ok work, st).
Proof. intros Hget Hset. unfold enrich. run. rewrite Hget, Hset. reflexivity. Qed.

(** With no [api_id] in scope, an entry with an external id stops at the
    lookup address: a ReferenceError, before any request is sent. *)
Lemma enrich_undeclared (work api_id : value) (st : state W) :
  get_prop work "api_id" = Ok api_id -> is_set api_id = true ->
  assoc "api_id" globalThis = None ->
  enrich work st = (Throw (ReferenceError "api_id is not defined"), st).
Proof.
  intros Hget Hset Hfree. unfold enrich, free_identifier. run.
  rewrite Hget, Hset, Hfree. reflexivity.
Qed.

(** When the address can be built and the catalog rejects the request,
    the rejection is what the loop body throws. *)
Lemma enrich_rejected (work api_id free : value) (st : state W) e w' :
  get_prop work "api_id" = Ok api_id -> is_set api_id = true ->
  assoc "api_id" globalThis = Some free ->
  axios_get (url ++ "/work/detail/" ++ ToString free ++ ".json") (world st)
    = (Throw e, w') ->
  enrich work st
    = (Throw e,
       {| world := w';
          calls := calls st ++
            [CallAxiosGet (url ++ "/work/detail/" ++ ToString free ++ ".json")] |}).
Proof.
  intros Hget Hset Hfree Hreq. unfold enrich, free_identifier. run.
  rewrite Hget, Hset, Hfree, Hreq. reflexivity.
Qed.

(** The handler of GET /:username up to the guard of the loop. *)
Lemma get_username_skips (req : request) (w w1 : W) (user works : value) :
  User_get (param req "username") w = (Ok user, w1) ->
  get_prop user "works" = Ok works ->
  more_than_one works {| world := w1; calls := [CallGet (param req "username")] |}
    = (Ok false, {| world := w1; calls := [CallGet (param req "username")] |}) ->
  get_username req (start w)
    = (Responded 200 (VObj [("user", user)]),
       {| world := w1; calls := [CallGet (param req "username")] |}).
Proof.
  intros Hget Hworks Hguard. unfold get_username. run.
  rewrite Hget. cbn [app]. rewrite Hworks, Hguard. reflexivity.
Qed.

(** Entries without external id go through the loop untouched. *)
Lemma for_of_unset (items : list value) (st : state W) :
  (forall x, In x items ->
     exists api_id, get_prop x "api_id" = Ok api_id /\ is_set api_id = false) ->
  for_of items enrich st = (Ok items, st).
Proof.
  induction items as [| x items IH]; intros Hunset; [reflexivity |].
  destruct (Hunset x (or_introl eq_refl)) as [api_id [Hget Hset]].
  cbn [for_of].
  rewrite (bind_ok _ _ st x st (enrich_unset x api_id st Hget Hset)).
  rewrite (bind_ok _ _ st items st (IH (fun y Hy => Hunset y (or_intror Hy)))).
  reflexivity.
Qed.

(** A throw of the loop body is the end of the request. *)
Lemma get_username_loop_throws (req : request) (w w1 : W)
    (user entry : value) (before after before' : list value)
    (st st' : state W) (e : error) :
  User_get (param req "username") w = (Ok user, w1) ->
  get_prop user "works" = Ok (VArr (before ++ entry :: after)) ->
  1 < List.length (before ++ entry :: after) ->
  for_of before enrich {| world := w1; calls := [CallGet (param req "username")] |}
    = (Ok before', st) ->
  enrich entry st = (Throw e, st') ->
  get_username req (start w) = (Next e, st').
Proof.
  intros Hget Hworks Hlen Hbefore Hentry.
  unfold get_username. run. use Hget. use Hworks.
  rewrite more_than_one_array.
  destruct (Nat.ltb_spec 1 (List.length (before ++ entry :: after))) as [_ | Hle];
    [| lia].
  cbn [iterate].
  rewrite (for_of_throws enrich before entry after before' _ st e st' Hbefore Hentry).
  reflexivity.
Qed.

(** On a runtime without a global [api_id], a library of more than one
    entry is answered with a ReferenceError as soon as one of its entries
    has an external id, and nothing is requested from the catalog. *)
Lemma get_username_undeclared (req : request) (w w1 : W)
    (user entry api_id : value) (before after : list value) :
  assoc "api_id" globalThis = None ->
  User_get (param req "username") w = (Ok user, w1) ->
  get_prop user "works" = Ok (VArr (before ++ entry :: after)) ->
  1 < List.length (before ++ entry :: after) ->
  (forall x, In x before ->
     exists a, get_prop x "api_id" = Ok a /\ is_set a = false) ->
  get_prop entry "api_id" = Ok api_id -> is_set api_id = true ->
  get_username req (start w)
    = (Next (ReferenceError "api_id is not defined"),
       {| world := w1; calls := [CallGet (param req "username")] |}).
Proof.
  intros Hfree Hget Hworks Hlen Hbefore Hentry Hset.
  apply (get_username_loop_throws req w w1 user entry before after before
           {| world := w1; calls := [CallGet (param req "username")] |});
    try assumption.
  - apply for_of_unset; assumption.
  - apply enrich_undeclared with (api_id := api_id); assumption.
Qed.

(** Where the address can be built, a rejected lookup for the first entry
    with an external id is the only lookup of the run. *)
Lemma get_username_lookup_rejected (req : request) (w w1 w2 : W)
    (user entry api_id free : value) (before after : list value) (e : error) :
  assoc "api_id" globalThis = Some free ->
  User_get (param req "username") w = (Ok user, w1) ->
  get_prop user "works" = Ok (VArr (before ++ entry :: after)) ->
  1 < List.length (before ++ entry :: after) ->
  (forall x, In x before ->
     exists a, get_prop x "api_id" = Ok a /\ is_set a = false) ->
  get_prop entry "api_id" = Ok api_id -> is_set api_id = true ->
  axios_get (url ++ "/work/detail/" ++ ToString free ++ ".json") w1 = (Throw e, w2) ->
  get_username req (start w)
    = (Next e,
       {| world := w2;
          calls := [CallGet (param req "username");
                    CallAxiosGet (url ++ "/work/detail/" ++ ToString free ++ ".json")] |}).
Proof.
  intros Hfree Hget Hworks Hlen Hbefore Hentry Hset Hreq.
  apply (get_username_loop_throws req w w1 user entry before after before
           {| world := w1; calls := [CallGet (param req "username")] |});
    try assumption.
  - apply for_of_unset; assumption.
  - apply (enrich_rejected entry api_id free
             {| world := w1; calls := [CallGet (param req "username")] |} e w2);
      assumption.
Qed.

End HandlerFacts.

(** ** GET /:username *)

Section GetUsername.
Context {rt : Runtime} {W : Type} {imports : Imports W}.

(** C9: when the works of the user that [User.get] returned are absent
    (undefined or null), empty, or exactly one entry, the handler of
    GET /:username answers 200 with that very user object, its only call
    is the [User.get] itself, so no request goes to the catalog, and the
    world is as [User.get] left it. *)
Theorem get_username_short_library (req : request) (w w1 : W) (user works : value) :
  User_get (param req "username") w = (Ok user, w1) ->
  get_prop user "works" = Ok works ->
  is_set works = false \/ works = VArr [] \/ (exists entry, works = VArr [entry]) ->
  fst (get_username req (start w)) = Responded 200 (VObj [("user", user)]) /\
  calls (snd (get_username req (start w))) = [CallGet (param req "username")] /\
  existsb is_lookup (calls (snd (get_username req (start w)))) = false /\
  world (snd (get_username req (start w))) = w1.
Proof.
  intros Hget Hworks Hshort.
  assert (Hrun : get_username req (start w)
                 = (Responded 200 (VObj [("user", user)]),
                    {| world := w1; calls := [CallGet (param req "username")] |})).
  { apply get_username_skips with (works := works); try assumption.
    destruct Hshort as [Hunset | [Hempty | [entry Hone]]].
    - apply more_than_one_unset; assumption.
    - subst works. apply more_than_one_array.
    - subst works. apply more_than_one_array. }
  rewrite Hrun. cbn. repeat split; reflexivity.
Qed.

(** C2, as the handler has it: an error thrown while an entry is enriched
    (building the lookup address, the catalog request, or reading its
    answer) is not caught per entry.  It leaves the loop, so that no later
    entry is looked up, and the request ends with [next] of that error in
    the state the failing entry left; no user object is sent. *)
Theorem get_username_enrichment_error (req : request) (w w1 : W)
    (user entry : value) (before after before' : list value)
    (st st' : state W) (e : error) :
  User_get (param req "username") w = (Ok user, w1) ->
  get_prop user "works" = Ok (VArr (before ++ entry :: after)) ->
  1 < List.length (before ++ entry :: after) ->
  for_of before enrich {| world := w1; calls := [CallGet (param req "username")] |}
    = (Ok before', st) ->
  enrich entry st = (Throw e, st') ->
  get_username req (start w) = (Next e, st').
Proof. exact (get_username_loop_throws req w w1 user entry before after before' st st' e). Qed.

End GetUsername.

(** ** PATCH /:username *)

Section PatchUsername.
Context {W : Type} {imports : Imports W}.

(** A body that fails the update schema ends the handler at once. *)
Lemma patch_username_rejects (req : request) (w : W) :
  valid (jsonschema_validate (body req) userUpdateSchema) = false ->
  patch_username req (start w)
    = (Next (BadRequestError (stacks (jsonschema_validate (body req) userUpdateSchema))),
       start w).
Proof.
  intros Hvalid. unfold patch_username, check_schema. run.
  rewrite Hvalid. reflexivity.
Qed.

(** [User.update] is called only after [User.authenticate] answered with a
    truthy value. *)
Lemma patch_username_update_verified (req : request) (w : W) :
  existsb is_update (calls (snd (patch_username req (start w)))) = true ->
  exists password isValid w1,
    get_prop (body req) "password" = Ok password /\
    User_authenticate (param req "username") password w = (Ok isValid, w1) /\
    truthy isValid = true.
Proof.
  unfold patch_username, check_schema. run.
  destruct (valid (jsonschema_validate (body req) userUpdateSchema)); cbn;
    [| discriminate].
  destruct (get_prop (body req) "password") as [password | e]; cbn;
    [| discriminate].
  destruct (User_authenticate (param req "username") password w)
    as [[isValid | e] w1] eqn:Hauth; cbn; [| discriminate].
  destruct (truthy isValid) eqn:Htruthy; cbn; [| discriminate].
  intros _. exists password, isValid, w1. repeat split; assumption.
Qed.

(** C3: when the body passes the update schema and the password it
    carries does not verify ([User.authenticate] answers with a falsy
    value), the handler of PATCH /:username ends with [next] of
    UnauthorizedError "Bad password" (401); its only call is the
    authentication, so [User.update] is never invoked and the world is as
    the authentication left it. *)
Theorem patch_username_bad_password (req : request) (w w1 : W)
    (password isValid : value) :
  valid (jsonschema_validate (body req) userUpdateSchema) = true ->
  get_prop (body req) "password" = Ok password ->
  User_authenticate (param req "username") password w = (Ok isValid, w1) ->
  truthy isValid = false ->
  patch_username req (start w)
    = (Next (UnauthorizedError (VStr "Bad password")),
       {| world := w1;
          calls := [CallAuthenticate (param req "username") password] |}) /\
  status_of (UnauthorizedError (VStr "Bad password")) = Some 401 /\
  existsb is_update (calls (snd (patch_username req (start w)))) = false.
Proof.
  intros Hvalid Hpassword Hauth Hfalsy.
  assert (Hrun : patch_username req (start w)
                 = (Next (UnauthorizedError (VStr "Bad password")),
                    {| world := w1;
                       calls := [CallAuthenticate (param req "username") password] |})).
  { unfold patch_username, check_schema. run.
    use Hvalid. use Hpassword. use Hauth. use Hfalsy. reflexivity. }
  rewrite Hrun. repeat split; reflexivity.
Qed.

(** C6: a body that fails the update schema makes the handler of
    PATCH /:username end with [next] of a BadRequestError (400) that
    carries the validator's error stacks; the run makes no call at all,
    neither [User.authenticate] nor [User.update], and leaves the world as
    it was. *)
Theorem patch_username_malformed (req : request) (w : W) :
  valid (jsonschema_validate (body req) userUpdateSchema) = false ->
  fst (patch_username req (start w))
    = Next (BadRequestError (stacks (jsonschema_validate (body req) userUpdateSchema))) /\
  status_of (BadRequestError (stacks (jsonschema_validate (body req) userUpdateSchema)))
    = Some 400 /\
  calls (snd (patch_username req (start w))) = [] /\
  world (snd (patch_username req (start w))) = w.
Proof.
  intros Hvalid. rewrite (patch_username_rejects req w Hvalid).
  repeat split; reflexivity.
Qed.

(** C10: the schema is checked before the password.  Take a body that
    fails the update schema and whose password is also wrong (the
    authentication, had it been asked, would answer with a falsy value or
    reject): the handler still ends with a BadRequestError (400), not with
    what the authentication would have caused, and [User.authenticate] is
    not among its calls. *)
Theorem patch_username_schema_before_password (req : request) (w w1 : W)
    (password : value) (verdict : result value) :
  valid (jsonschema_validate (body req) userUpdateSchema) = false ->
  get_prop (body req) "password" = Ok password ->
  User_authenticate (param req "username") password w = (verdict, w1) ->
  (forall isValid, verdict = Ok isValid -> truthy isValid = false) ->
  (exists errs,
     fst (patch_username req (start w)) = Next (BadRequestError errs) /\
     status_of (BadRequestError errs) = Some 400) /\
  fst (patch_username req (start w)) <> Next (UnauthorizedError (VStr "Bad password")) /\
  existsb is_authenticate (calls (snd (patch_username req (start w)))) = false.
Proof.
  intros Hvalid _ _ _. rewrite (patch_username_rejects req w Hvalid). cbn.
  split; [| split].
  - eexists. split; reflexivity.
  - discriminate.
  - reflexivity.
Qed.

End PatchUsername.

(** ** POST / and POST /:id/userLib/:workId *)

Section Posts.
Context {rt : Runtime} {W : Type} {imports : Imports W} {auth : Middleware}.

(** C7, as the handler has it: a POST / that the admin guard lets
    through, whose body passes the new-user schema, and for which
    [User.register] produces a record and [createToken] a token for it, is
    answered 201 with the body [{user, token}] of exactly that record and
    that token; the only call is the registration. *)
Theorem POST_root_created (req : request) (w w1 : W) (user token : value) :
  ensureAdmin req = Ok tt ->
  valid (jsonschema_validate (body req) userNewSchema) = true ->
  User_register (body req) w = (Ok user, w1) ->
  createToken user = Ok token ->
  POST_root req w
    = (Responded 201 (VObj [("user", user); ("token", token)]),
       {| world := w1; calls := [CallRegister (body req)] |}).
Proof.
  intros Hadmin Hvalid Hregister Htoken.
  unfold POST_root, route, post_root, check_schema. rewrite Hadmin. run.
  use Hvalid. use Hregister. use Htoken. reflexivity.
Qed.

(** C8: a POST /:id/userLib/:workId that the guard lets through and for
    which [User.addToUserLib] succeeds: the handler called it once, with
    the two path parameters [id] and [workId] (each turned into a Number
    by the unary plus), and answers 200 with [{added: workId}], the
    [workId] parameter as the route received it. *)
Theorem POST_userLib_added (req : request) (w w1 : W) (done : value) :
  ensureCorrectUserOrAdmin req = Ok tt ->
  User_addToUserLib (VNum (ToNumber (param req "id")))
                    (VNum (ToNumber (param req "workId"))) w = (Ok done, w1) ->
  POST_userLib req w
    = (Responded 200 (VObj [("added", param req "workId")]),
       {| world := w1;
          calls := [CallAddToUserLib (VNum (ToNumber (param req "id")))
                                     (VNum (ToNumber (param req "workId")))] |}).
Proof.
  intros Hguard Hadd.
  unfold POST_userLib, route, post_userLib. rewrite Hguard. run.
  rewrite Hadd. reflexivity.
Qed.

End Posts.

Section PostsOnTheDirectory.
Import Demo Directory.

(** C7 does not hold as stated: passing the admin guard and the new-user
    schema is not enough for a 201.  Root posts a second Bob to a
    directory that has one: the guard lets the request through, the body
    passes the schema, [User.register] rejects, and the request ends with
    [next] of the Conflict; no [{user, token}] is sent. *)
Lemma POST_root_valid_but_not_created :
  ensureAdmin (Middleware := Auth.guards) (request_for root "" bob_again) = Ok tt /\
  valid (jsonschema_validate (Imports := up) bob_again userNewSchema) = true /\
  POST_root (imports := up) (auth := Auth.guards)
            (request_for root "" bob_again) store_with_bob
    = (Next (ConflictError (VStr "Duplicate username")),
       {| world := store_with_bob; calls := [CallRegister bob_again] |}) /\
  ~ (exists user token,
       fst (POST_root (imports := up) (auth := Auth.guards)
                      (request_for root "" bob_again) store_with_bob)
         = Responded 201 (VObj [("user", user); ("token", token)])).
Proof.
  split; [reflexivity | split; [reflexivity | split; [reflexivity |]]].
  intros [user [token Hcreated]]. discriminate Hcreated.
Qed.

End PostsOnTheDirectory.

(** ** The self-or-admin guard in front of GET /:username *)

Section Guarded.
Context {rt : Runtime} {W : Type} {imports : Imports W}.

(** C5: under the self-or-admin guard, a caller whose identity is not
    admin is turned away from GET /:username with Forbidden (403) when the
    username of the route is not the caller's own, without the handler
    running (no call is made), and reaches the handler when it is: the
    route then does exactly what the handler does. *)
Theorem GET_username_self_or_forbidden (req : request) (w : W)
    (who : identity) (routeUsername : string) :
  locals_user req = Some who ->
  id_isAdmin who = false ->
  assoc "username" (params req) = Some routeUsername ->
  (routeUsername <> id_username who ->
     GET_username (auth := Auth.guards) req w
       = (Next (ForbiddenError VUndef), start w) /\
     status_of (ForbiddenError VUndef) = Some 403) /\
  (routeUsername = id_username who ->
     GET_username (auth := Auth.guards) req w = get_username req (start w)).
Proof.
  intros Hwho Hplain Hroute.
  unfold GET_username, route; cbn [ensureCorrectUserOrAdmin Auth.guards].
  unfold Auth.SelfOrAdmin. rewrite Hwho, Hplain, Hroute. cbn [orb].
  split.
  - intros Hother.
    destruct (String.eqb_spec (id_username who) routeUsername) as [Heq | _].
    + exfalso. apply Hother. symmetry. exact Heq.
    + split; reflexivity.
  - intros Hself. subst routeUsername. rewrite String.eqb_refl. reflexivity.
Qed.

End Guarded.

(** ** Registration over the user directory *)

Section Registration.
Import Directory.
Context {credentials : CredentialStore}.

(** A username or an email that is taken makes [register] fail with
    Conflict and leaves the directory as it was. *)
Lemma register_duplicate (data : value) (d : db) (nu : new_user) :
  parse_new_user data = Some nu ->
  existsb (has_username (nu_username nu)) (users d) = true \/
  existsb (has_email (nu_email nu)) (users d) = true ->
  exists msg, register data d = (Throw (ConflictError msg), d).
Proof.
  intros Hparse Htaken. unfold register. rewrite Hparse.
  destruct (existsb (has_username (nu_username nu)) (users d)) eqn:Hname.
  - eexists. reflexivity.
  - destruct Htaken as [Habs | Hmail]; [discriminate |].
    rewrite Hmail. eexists. reflexivity.
Qed.

(** After a registration both the username and the email are taken. *)
Lemma register_persists (data user : value) (d d' : db) (nu : new_user) :
  parse_new_user data = Some nu ->
  register data d = (Ok user, d') ->
  existsb (has_username (nu_username nu)) (users d') = true /\
  existsb (has_email (nu_email nu)) (users d') = true.
Proof.
  intros Hparse. unfold register. rewrite Hparse.
  destruct (existsb (has_username (nu_username nu)) (users d)); [discriminate |].
  destruct (existsb (has_email (nu_email nu)) (users d)); [discriminate |].
  intros Hreg. inversion Hreg; subst; clear Hreg. cbn [users].
  rewrite !existsb_app. cbn [existsb].
  unfold has_username, has_email; cbn [username email].
  rewrite !String.eqb_refl, !orb_true_r. split; reflexivity.
Qed.

(** Through the handler: a registration that conflicts ends the request
    with the Conflict and leaves the directory as it was. *)
Lemma post_root_conflict
    (validate : value -> schema -> ValidatorResult)
    (catalog : string -> result value) (issue : value -> result value)
    (req : request) (d : db) (second : new_user) :
  valid (validate (body req) userNewSchema) = true ->
  parse_new_user (body req) = Some second ->
  existsb (has_username (nu_username second)) (users d) = true \/
  existsb (has_email (nu_email second)) (users d) = true ->
  exists msg,
    post_root (imports := imports validate catalog issue) req (start d)
      = (Next (ConflictError msg),
         {| world := d; calls := [CallRegister (body req)] |}) /\
    status_of (ConflictError msg) = Some 409.
Proof.
  intros Hvalid Hparse Htaken.
  destruct (register_duplicate (body req) d second Hparse Htaken) as [msg Hmsg].
  exists msg. split; [| reflexivity].
  unfold post_root, check_schema. run.
  cbn [jsonschema_validate User_register createToken imports].
  use Hvalid. use Hmsg. reflexivity.
Qed.

(** C4: over the directory, a POST / whose body passes the schema and
    carries the username, or the email, of a user that is already in the
    directory ends with [next] of a Conflict (409); the directory, that
    first user's record included, is what it was before the request. *)
Theorem post_root_duplicate_conflict
    (validate : value -> schema -> ValidatorResult)
    (catalog : string -> result value) (issue : value -> result value)
    (req : request) (d : db) (existing : user_record) (second : new_user) :
  valid (validate (body req) userNewSchema) = true ->
  parse_new_user (body req) = Some second ->
  In existing (users d) ->
  username existing = nu_username second \/ email existing = nu_email second ->
  exists msg,
    post_root (imports := imports validate catalog issue) req (start d)
      = (Next (ConflictError msg),
         {| world := d; calls := [CallRegister (body req)] |}) /\
    status_of (ConflictError msg) = Some 409 /\
    In existing (users (world (snd
      (post_root (imports := imports validate catalog issue) req (start d))))).
Proof.
  intros Hvalid Hparse Hin Hsame.
  destruct (post_root_conflict validate catalog issue req d second Hvalid Hparse)
    as [msg [Hrun Hstatus]].
  { destruct Hsame as [Hname | Hmail]; [left | right];
      apply existsb_exists; exists existing; (split; [exact Hin |]).
    - unfold has_username. rewrite Hname. apply String.eqb_refl.
    - unfold has_email. rewrite Hmail. apply String.eqb_refl. }
  exists msg. rewrite Hrun. cbn [snd world]. repeat split; assumption.
Qed.

(** The two registrations of the specification's scenario: once a POST /
    has registered a user (201), a second POST / under the same username,
    or the same email, is a Conflict. *)
Lemma post_root_twice
    (validate : value -> schema -> ValidatorResult)
    (catalog : string -> result value) (issue : value -> result value)
    (req1 req2 : request) (d : db) (created : value) (st1 : state db)
    (first second : new_user) :
  post_root (imports := imports validate catalog issue) req1 (start d)
    = (Responded 201 created, st1) ->
  parse_new_user (body req1) = Some first ->
  valid (validate (body req2) userNewSchema) = true ->
  parse_new_user (body req2) = Some second ->
  nu_username second = nu_username first \/ nu_email second = nu_email first ->
  exists msg,
    post_root (imports := imports validate catalog issue) req2 (start (world st1))
      = (Next (ConflictError msg),
         {| world := world st1; calls := [CallRegister (body req2)] |}) /\
    status_of (ConflictError msg) = Some 409.
Proof.
  intros Hfirst Hparse1 Hvalid2 Hparse2 Hsame.
  assert (Htaken : existsb (has_username (nu_username first)) (users (world st1)) = true /\
                   existsb (has_email (nu_email first)) (users (world st1)) = true).
  { revert Hfirst. unfold post_root, check_schema. run.
    cbn [jsonschema_validate User_register createToken imports].
    destruct (valid (validate (body req1) userNewSchema)); step; [| discriminate].
    destruct (register (body req1) d) as [[user | e] d1] eqn:Hreg; step;
      [| discriminate].
    destruct (issue user); step; [| discriminate].
    intros Hrun. inversion Hrun; subst; clear Hrun. cbn [world].
    exact (register_persists (body req1) user d d1 first Hparse1 Hreg). }
  destruct Htaken as [Hname Hmail].
  apply (post_root_conflict validate catalog issue req2 (world st1) second Hvalid2 Hparse2).
  destruct Hsame as [Heq | Heq]; rewrite Heq; [left | right]; assumption.
Qed.

End Registration.


(** ** The handlers on the small installation *)

Section Runs.
Import Demo Directory.

(** C1 does not hold of the handler.  Alice's library has exactly one
    entry, with an external id, and the catalog
    would answer: GET /alice returns the entry as stored, without title
    and composer, and sends no request.  Carol's library has three
    entries, two with an external id: GET /carol stops at the first of
    them with a ReferenceError, the identifier [api_id] of the lookup
    address being declared nowhere, and nothing is enriched either. *)
Theorem get_username_does_not_enrich :
  get_username (rt := node) (imports := up) (request_for alice "alice" VUndef)
               (start store)
    = (Responded 200 (VObj [("user", alice_view)]),
       {| world := store; calls := [CallGet (VStr "alice")] |}) /\
  get_prop alice_entry "title" = Ok VUndef /\
  get_prop alice_entry "composer" = Ok VUndef /\
  get_username (rt := node) (imports := up) (request_for carol "carol" VUndef)
               (start store)
    = (Next (ReferenceError "api_id is not defined"),
       {| world := store; calls := [CallGet (VStr "carol")] |}).
Proof. repeat split; reflexivity. Qed.

(** C2 does not hold as stated: the catalog is down and Carol's library has two
    entries with an external id.  Where the lookup address can be built,
    the first lookup is sent and rejected, the rejection ends the request
    through [next], the second entry is never looked up and no entry is
    returned; on the server's own runtime the request ends the same way
    one step earlier.  In neither case is a user object sent. *)
Lemma get_username_lookup_failure_is_fatal :
  get_username (rt := node_with_global) (imports := down)
               (request_for carol "carol" VUndef) (start store)
    = (Next (Thrown (VStr "ECONNREFUSED")),
       {| world := store;
          calls := [CallGet (VStr "carol"); CallAxiosGet lookup_address] |}) /\
  get_username (rt := node) (imports := down)
               (request_for carol "carol" VUndef) (start store)
    = (Next (ReferenceError "api_id is not defined"),
       {| world := store; calls := [CallGet (VStr "carol")] |}) /\
  ~ (exists sent,
       fst (get_username (rt := node_with_global) (imports := down)
                         (request_for carol "carol" VUndef) (start store))
         = Responded 200 sent).
Proof.
  split; [reflexivity | split; [reflexivity |]].
  intros [sent Hsent]. discriminate Hsent.
Qed.

(** What the loop does when nothing stops it: with an [api_id] in the
    global object and the catalog answering, Carol's two entries with an
    external id get a title and a composer, both from the one address
    that the global value gives. *)
Example get_username_enriches_when_it_can :
  get_username (rt := node_with_global) (imports := up)
               (request_for carol "carol" VUndef) (start store)
    = (Responded 200
         (VObj [("user",
            VObj (public carol ++
              [("works",
                VArr [VObj [("id", VNum (Fin 43)); ("api_id", VNull)];
                      VObj [("id", VNum (Fin 41)); ("api_id", VNum (Fin 1756));
                            ("title", VStr "Goldberg Variations");
                            ("composer", VStr "Johann Sebastian Bach")];
                      VObj [("id", VNum (Fin 42)); ("api_id", VNum (Fin 1757));
                            ("title", VStr "Goldberg Variations");
                            ("composer", VStr "Johann Sebastian Bach")]])]))]),
       {| world := store;
          calls := [CallGet (VStr "carol"); CallAxiosGet lookup_address;
                    CallAxiosGet lookup_address] |}).
Proof. reflexivity. Qed.

End Runs.

(** ** The theorems at work *)

Section Witnesses.
Import Demo Directory.

(** GET /alice by Alice: one entry, answered as stored. *)
Lemma get_username_short_library_witness :
  fst (get_username (rt := node) (imports := up)
         (request_for alice "alice" VUndef) (start store))
    = Responded 200 (VObj [("user", alice_view)]) /\
  calls (snd (get_username (rt := node) (imports := up)
                (request_for alice "alice" VUndef) (start store)))
    = [CallGet (VStr "alice")] /\
  existsb is_lookup
    (calls (snd (get_username (rt := node) (imports := up)
                   (request_for alice "alice" VUndef) (start store)))) = false /\
  world (snd (get_username (rt := node) (imports := up)
                (request_for alice "alice" VUndef) (start store))) = store.
Proof.
  apply (get_username_short_library (rt := node) (imports := up)
           (request_for alice "alice" VUndef) store store
           alice_view (VArr [alice_entry])).
  - reflexivity.
  - reflexivity.
  - right; right. exists alice_entry. reflexivity.
Defined.

(** GET /carol with the catalog down: the entry without external id is
    passed over, the lookup for the next one is rejected. *)
Lemma get_username_enrichment_error_witness :
  get_username (rt := node_with_global) (imports := down)
    (request_for carol "carol" VUndef) (start store)
  = (Next (Thrown (VStr "ECONNREFUSED")),
     {| world := store;
        calls := [CallGet (VStr "carol"); CallAxiosGet lookup_address] |}).
Proof.
  apply (get_username_enrichment_error (rt := node_with_global) (imports := down)
           (request_for carol "carol" VUndef) store store carol_view
           (VObj [("id", VNum (Fin 41)); ("api_id", VNum (Fin 1756))])
           [VObj [("id", VNum (Fin 43)); ("api_id", VNull)]]
           [VObj [("id", VNum (Fin 42)); ("api_id", VNum (Fin 1757))]]
           [VObj [("id", VNum (Fin 43)); ("api_id", VNull)]]
           {| world := store; calls := [CallGet (VStr "carol")] |}).
  - reflexivity.
  - reflexivity.
  - simpl. lia.
  - reflexivity.
  - reflexivity.
Defined.

(** PATCH /alice with a wrong password. *)
Lemma patch_username_bad_password_witness :
  patch_username (imports := up) (request_for alice "alice" wrong_password)
                 (start store)
    = (Next (UnauthorizedError (VStr "Bad password")),
       {| world := store;
          calls := [CallAuthenticate (VStr "alice") (VStr "guess")] |}) /\
  status_of (UnauthorizedError (VStr "Bad password")) = Some 401 /\
  existsb is_update
    (calls (snd (patch_username (imports := up)
                   (request_for alice "alice" wrong_password) (start store))))
    = false.
Proof.
  apply (patch_username_bad_password (imports := up)
           (request_for alice "alice" wrong_password) store store
           (VStr "guess") (VBool false)); reflexivity.
Defined.

(** PATCH /alice with a name that is not a string. *)
Lemma patch_username_malformed_witness :
  fst (patch_username (imports := up)
         (request_for alice "alice" malformed_update) (start store))
    = Next (BadRequestError (VArr [VStr "instance is not of a type(s) string"])) /\
  status_of (BadRequestError (VArr [VStr "instance is not of a type(s) string"]))
    = Some 400 /\
  calls (snd (patch_username (imports := up)
                (request_for alice "alice" malformed_update) (start store))) = [] /\
  world (snd (patch_username (imports := up)
                (request_for alice "alice" malformed_update) (start store))) = store.
Proof.
  apply (patch_username_malformed (imports := up)
           (request_for alice "alice" malformed_update) store).
  reflexivity.
Defined.

(** The same body: its password is wrong too, and is never looked at. *)
Lemma patch_username_schema_before_password_witness :
  (exists errs,
     fst (patch_username (imports := up)
            (request_for alice "alice" malformed_update) (start store))
       = Next (BadRequestError errs) /\
     status_of (BadRequestError errs) = Some 400) /\
  fst (patch_username (imports := up)
         (request_for alice "alice" malformed_update) (start store))
    <> Next (UnauthorizedError (VStr "Bad password")) /\
  existsb is_authenticate
    (calls (snd (patch_username (imports := up)
                   (request_for alice "alice" malformed_update) (start store))))
    = false.
Proof.
  apply (patch_username_schema_before_password (imports := up)
           (request_for alice "alice" malformed_update) store store
           (VStr "guess") (Ok (VBool false))).
  - reflexivity.
  - reflexivity.
  - reflexivity.
  - intros isValid Hverdict. inversion Hverdict. reflexivity.
Defined.

(** Root registers Bob. *)
Lemma POST_root_created_witness :
  POST_root (imports := up) (auth := Auth.guards) (request_for root "" bob) store
    = (Responded 201
         (VObj [("user", VObj (public bob_record)); ("token", VStr "token:bob")]),
       {| world := store_with_bob; calls := [CallRegister bob] |}).
Proof.
  apply (POST_root_created (imports := up) (auth := Auth.guards)
           (request_for root "" bob) store store_with_bob
           (VObj (public bob_record)) (VStr "token:bob")); reflexivity.
Defined.

(** Root adds work 41 to the library of user 1. *)
Lemma POST_userLib_added_witness :
  POST_userLib (rt := node) (imports := up) (auth := Auth.guards) add_request store
    = (Responded 200 (VObj [("added", VStr "41")]),
       {| world :=
            {| users := users store; works := works store;
               library := library store ++
                 [{| owner := 1; work := 41; annotations := [] |}];
               next_id := 3 |};
          calls := [CallAddToUserLib (VNum (Fin 1)) (VNum (Fin 41))] |}).
Proof.
  apply (POST_userLib_added (rt := node) (imports := up) (auth := Auth.guards)
           add_request store _ VUndef); reflexivity.
Defined.

(** Alice asks for Carol, then for herself. *)
Lemma GET_username_self_or_forbidden_witness :
  (GET_username (rt := node) (imports := up) (auth := Auth.guards)
     (request_for alice "carol" VUndef) store
     = (Next (ForbiddenError VUndef), start store) /\
   status_of (ForbiddenError VUndef) = Some 403) /\
  GET_username (rt := node) (imports := up) (auth := Auth.guards)
    (request_for alice "alice" VUndef) store
    = get_username (rt := node) (imports := up)
        (request_for alice "alice" VUndef) (start store).
Proof.
  split.
  - apply (GET_username_self_or_forbidden (rt := node) (imports := up)
             (request_for alice "carol" VUndef) store
             {| id_username := "alice"; id_isAdmin := false |} "carol");
      try reflexivity.
    discriminate.
  - apply (GET_username_self_or_forbidden (rt := node) (imports := up)
             (request_for alice "alice" VUndef) store
             {| id_username := "alice"; id_isAdmin := false |} "alice");
      reflexivity.
Defined.

(** Bob is in the directory and is registered again under another
    email. *)
Lemma post_root_duplicate_conflict_witness :
  exists msg,
    post_root (imports := up) (request_for root "" bob_again) (start store_with_bob)
      = (Next (ConflictError msg),
         {| world := store_with_bob; calls := [CallRegister bob_again] |}) /\
    status_of (ConflictError msg) = Some 409 /\
    In bob_record (users (world (snd
      (post_root (imports := up) (request_for root "" bob_again)
                 (start store_with_bob))))).
Proof.
  apply (post_root_duplicate_conflict (credentials := plain)
           validate catalog_up issue
           (request_for root "" bob_again) store_with_bob bob_record
           {| nu_username := "bob"; nu_name := "Robert"; nu_email := "r@x.com";
              nu_password := "pw789"; nu_isAdmin := false |}).
  - reflexivity.
  - reflexivity.
  - simpl. right; right; right; left. reflexivity.
  - left. reflexivity.
Defined.

End Witnesses.

(** * More properties of the router *)

(** ** Objects: reading after writing *)

Lemma assoc_assign_same {A : Type} (k : string) (v : A) (l : list (string * A)) :
  assoc k (assign k v l) = Some v.
Proof.
  induction l as [| [k' v'] l IH]; cbn [assign assoc].
  - rewrite String.eqb_refl. reflexivity.
  - destruct (String.eqb k k') eqn:Hk; cbn [assoc].
    + rewrite String.eqb_refl. reflexivity.
    + rewrite Hk. exact IH.
Qed.

Lemma assoc_assign_other {A : Type} (k k' : string) (v : A) (l : list (string * A)) :
  k' <> k -> assoc k' (assign k v l) = assoc k' l.
Proof.
  intros Hneq. induction l as [| [k0 v0] l IH]; cbn [assign assoc].
  - destruct (String.eqb_spec k' k) as [Heq | _]; [contradiction | reflexivity].
  - destruct (String.eqb_spec k k0) as [Heq | Hk]; cbn [assoc].
    + subst k0.
      destruct (String.eqb_spec k' k) as [Heq | _]; [contradiction | reflexivity].
    + destruct (String.eqb k' k0); [reflexivity | exact IH].
Qed.

Lemma assign_same {A : Type} (k : string) (v : A) (l : list (string * A)) :
  assoc k l = Some v -> assign k v l = l.
Proof.
  induction l as [| [k' v'] l IH]; cbn [assign assoc]; [discriminate |].
  destruct (String.eqb_spec k k') as [Heq | _].
  - intros Hv. inversion Hv; subst. reflexivity.
  - intros Hv. rewrite (IH Hv). reflexivity.
Qed.

Lemma keys_assign_present {A : Type} (k : string) (v : A) (l : list (string * A)) :
  In k (map fst l) -> map fst (assign k v l) = map fst l.
Proof.
  induction l as [| [k' v'] l IH]; cbn [assign map fst In]; [contradiction |].
  destruct (String.eqb_spec k k') as [Heq | Hneq]; cbn [map fst].
  - subst. reflexivity.
  - intros [Heq | Hin]; [congruence |]. rewrite (IH Hin). reflexivity.
Qed.

Lemma keys_assign_absent {A : Type} (k : string) (v : A) (l : list (string * A)) :
  ~ In k (map fst l) -> map fst (assign k v l) = map fst l ++ [k].
Proof.
  induction l as [| [k' v'] l IH]; cbn [assign map fst In app]; [reflexivity |].
  intros Hnot. destruct (String.eqb_spec k k') as [Heq | Hneq]; cbn [map fst].
  - exfalso. apply Hnot. left. symmetry. exact Heq.
  - rewrite IH; [reflexivity |]. intros Hin. apply Hnot. right. exact Hin.
Qed.

(** Writing back the value a property already has changes nothing. *)
Lemma mutated_same (o v : value) (k : string) :
  get_prop o k = Ok v -> v <> VUndef -> mutated o k v = o.
Proof.
  destruct o as [| | b | n | s | items | props]; cbn [get_prop mutated];
    try reflexivity.
  destruct (assoc k props) as [v' |] eqn:Hk; intros Hv Hdef.
  - inversion Hv; subst. rewrite (assign_same k v props Hk). reflexivity.
  - inversion Hv; subst. contradiction.
Qed.

(** ** POST /, GET / and DELETE /:username *)

Section MoreRoutes.
Context {rt : Runtime} {W : Type} {imports : Imports W}.

(** X1: a body that fails the new-user schema ends POST / with [next] of
    a BadRequestError carrying the validator's error stacks; nothing is
    registered: the run makes no call and leaves the world as it was. *)
Theorem post_root_malformed (req : request) (w : W) :
  valid (jsonschema_validate (body req) userNewSchema) = false ->
  post_root req (start w)
    = (Next (BadRequestError (stacks (jsonschema_validate (body req) userNewSchema))),
       start w).
Proof.
  intros Hvalid. unfold post_root, check_schema. run. use Hvalid. reflexivity.
Qed.

(** X2: whenever the handler of POST / sends a response, it is a 201
    whose body is [{user, token}]: the body of the request passed the
    schema, [user] is what [User.register] resolved to on that body and
    [token] what [createToken] made of it.  There is no other response. *)
Theorem post_root_responds_only_created (req : request) (w : W)
    (status : nat) (payload : value) :
  fst (post_root req (start w)) = Responded status payload ->
  status = 201 /\
  valid (jsonschema_validate (body req) userNewSchema) = true /\
  exists user token,
    fst (User_register (body req) w) = Ok user /\
    createToken user = Ok token /\
    payload = VObj [("user", user); ("token", token)].
Proof.
  unfold post_root, check_schema. run.
  destruct (valid (jsonschema_validate (body req) userNewSchema)); step;
    [| discriminate].
  destruct (User_register (body req) w) as [[user | e] w1]; step; [| discriminate].
  destruct (createToken user) as [token | e] eqn:Htoken; step; [| discriminate].
  intros Hresp. inversion Hresp; subst.
  repeat split. exists user, token. repeat split. exact Htoken.
Qed.

(** X3: when [createToken] throws after [User.register] resolved, POST /
    ends with [next] of that error, and the world is the one the
    registration left: the user exists although the request failed. *)
Theorem post_root_token_failure (req : request) (w w1 : W) (user : value) (e : error) :
  valid (jsonschema_validate (body req) userNewSchema) = true ->
  User_register (body req) w = (Ok user, w1) ->
  createToken user = Throw e ->
  post_root req (start w)
    = (Next e, {| world := w1; calls := [CallRegister (body req)] |}).
Proof.
  intros Hvalid Hregister Htoken. unfold post_root, check_schema. run.
  use Hvalid. use Hregister. use Htoken. reflexivity.
Qed.

(** X4: GET / asks the model once, whatever the request holds, and
    passes on what it got: the users under the key [users] with status
    200 when [User.findAll] resolved, the rejection through [next]
    otherwise. *)
Theorem get_root_lists (req : request) (w w1 : W) (found : result value) :
  User_findAll w = (found, w1) ->
  get_root req (start w)
    = (match found with
       | Ok users => Responded 200 (VObj [("users", users)])
       | Throw e => Next e
       end,
       {| world := w1; calls := [CallFindAll] |}).
Proof.
  intros Hfind. unfold get_root. run. use Hfind. destruct found; reflexivity.
Qed.

(** X5: DELETE /:username calls [User.remove] once, on the username of
    the route; when that resolves the answer is 200 with [{deleted}]
    echoing the route parameter, and when it rejects the rejection goes to
    [next] and nothing is reported as deleted. *)
Theorem delete_username_echoes (req : request) (w w1 : W) (removed : result value) :
  User_remove (param req "username") w = (removed, w1) ->
  delete_username req (start w)
    = (match removed with
       | Ok _ => Responded 200 (VObj [("deleted", param req "username")])
       | Throw e => Next e
       end,
       {| world := w1; calls := [CallRemove (param req "username")] |}).
Proof.
  intros Hremove. unfold delete_username. run. use Hremove.
  destruct removed; reflexivity.
Qed.

(** X6: when [User.addToUserLib] rejects, POST /:id/userLib/:workId
    ends with [next] of the rejection after that one call: nothing is
    reported as added. *)
Theorem post_userLib_rejected (req : request) (w w1 : W) (e : error) :
  User_addToUserLib (VNum (ToNumber (param req "id")))
                    (VNum (ToNumber (param req "workId"))) w = (Throw e, w1) ->
  post_userLib req (start w)
    = (Next e,
       {| world := w1;
          calls := [CallAddToUserLib (VNum (ToNumber (param req "id")))
                                     (VNum (ToNumber (param req "workId")))] |}).
Proof.
  intros Hadd. unfold post_userLib. run. use Hadd. reflexivity.
Qed.

End MoreRoutes.

(** ** More on PATCH /:username *)

Section MorePatch.
Context {W : Type} {imports : Imports W}.

(** X7: the whole of a successful PATCH /:username: the body passes the
    schema, the password it carries is authenticated with a truthy answer,
    and only then is [User.update] called, on the username of the route
    and the body as received; its record is sent back under [user] with
    status 200. *)
Theorem patch_username_updates (req : request) (w w1 w2 : W)
    (password isValid user : value) :
  valid (jsonschema_validate (body req) userUpdateSchema) = true ->
  get_prop (body req) "password" = Ok password ->
  User_authenticate (param req "username") password w = (Ok isValid, w1) ->
  truthy isValid = true ->
  User_update (param req "username") (body req) w1 = (Ok user, w2) ->
  patch_username req (start w)
    = (Responded 200 (VObj [("user", user)]),
       {| world := w2;
          calls := [CallAuthenticate (param req "username") password;
                    CallUpdate (param req "username") (body req)] |}).
Proof.
  intros Hvalid Hpassword Hauth Htruthy Hupdate.
  unfold patch_username, check_schema. run.
  use Hvalid. use Hpassword. use Hauth. use Htruthy. use Hupdate. reflexivity.
Qed.

(** X8: when [User.authenticate] itself rejects, PATCH /:username ends
    with [next] of that rejection, whatever it is, and [User.update] is
    not called. *)
Theorem patch_username_authenticate_rejects (req : request) (w w1 : W)
    (password : value) (e : error) :
  valid (jsonschema_validate (body req) userUpdateSchema) = true ->
  get_prop (body req) "password" = Ok password ->
  User_authenticate (param req "username") password w = (Throw e, w1) ->
  patch_username req (start w)
    = (Next e,
       {| world := w1;
          calls := [CallAuthenticate (param req "username") password] |}).
Proof.
  intros Hvalid Hpassword Hauth. unfold patch_username, check_schema. run.
  use Hvalid. use Hpassword. use Hauth. reflexivity.
Qed.

(** X9: the calls of any run of PATCH /:username are none, or one
    authentication, or one authentication followed by one update of the
    same username with the body of the request: the handler never updates
    twice, never updates before it authenticates, and calls nothing
    else. *)
Theorem patch_username_calls (req : request) (w : W) :
  calls (snd (patch_username req (start w))) = [] \/
  (exists password,
     calls (snd (patch_username req (start w)))
       = [CallAuthenticate (param req "username") password]) \/
  (exists password,
     calls (snd (patch_username req (start w)))
       = [CallAuthenticate (param req "username") password;
          CallUpdate (param req "username") (body req)]).
Proof.
  unfold patch_username, check_schema. run.
  destruct (valid (jsonschema_validate (body req) userUpdateSchema)); step;
    [| left; reflexivity].
  destruct (get_prop (body req) "password") as [password | e]; step;
    [| left; reflexivity].
  destruct (User_authenticate (param req "username") password w)
    as [[isValid | e] w1]; step; [| right; left; exists password; reflexivity].
  destruct (truthy isValid); step; [| right; left; exists password; reflexivity].
  destruct (User_update (param req "username") (body req) w1) as [[user | e] w2];
    step; right; right; exists password; reflexivity.
Qed.

End MorePatch.

(** ** More on GET /:username *)

Ltac failed_run :=
  split; [reflexivity | split; [reflexivity |]];
  intros ? ? Hresponded; discriminate Hresponded.

Ltac answered_run user :=
  split; [reflexivity | split; [reflexivity |]];
  intros ? ? Hresponded; inversion Hresponded; subst;
  split; [reflexivity | exists user; split; reflexivity].

Section MoreGetUsername.
Context {rt : Runtime} {W : Type} {imports : Imports W}.

(** The guard of the loop reads and compares, it changes nothing. *)
Lemma more_than_one_pure (works : value) (st : state W) :
  exists r, more_than_one works st = (r, st).
Proof.
  unfold more_than_one. run.
  destruct (truthy works); [| eexists; reflexivity].
  destruct (get_prop works "length"); eexists; reflexivity.
Qed.

Lemma more_than_one_truthy (works : value) (st st' : state W) :
  more_than_one works st = (Ok true, st') -> truthy works = true.
Proof.
  unfold more_than_one. run. destruct (truthy works); [reflexivity |].
  intros H. inversion H.
Qed.

(** Without a global [api_id] the loop body returns its entry as it got it
    or throws, and in both cases leaves the state alone. *)
Lemma enrich_without_global (work : value) (st : state W) :
  assoc "api_id" globalThis = None ->
  enrich work st = (Ok work, st) \/ exists e, enrich work st = (Throw e, st).
Proof.
  intros Hfree. unfold enrich, free_identifier. run. rewrite Hfree.
  destruct (get_prop work "api_id") as [api_id | e]; step;
    [| right; eexists; reflexivity].
  destruct (is_set api_id); step; [right; eexists; reflexivity | left; reflexivity].
Qed.

Lemma for_of_without_global (items : list value) (st : state W) :
  assoc "api_id" globalThis = None ->
  for_of items enrich st = (Ok items, st) \/
  exists e, for_of items enrich st = (Throw e, st).
Proof.
  intros Hfree. induction items as [| x items IH]; [left; reflexivity |].
  cbn [for_of].
  destruct (enrich_without_global x st Hfree) as [Hx | [e Hx]].
  - rewrite (bind_ok _ _ st x st Hx).
    destruct IH as [Hrest | [e Hrest]].
    + left. rewrite (bind_ok _ _ st items st Hrest). reflexivity.
    + right. exists e. apply bind_throw. exact Hrest.
  - right. exists e. apply bind_throw. exact Hx.
Qed.

(** X10: when [User.get] rejects (no such user), GET /:username ends
    with [next] of the rejection right after that call: no entry is read
    and nothing is requested from the catalog. *)
Theorem get_username_user_missing (req : request) (w w1 : W) (e : error) :
  User_get (param req "username") w = (Throw e, w1) ->
  get_username req (start w)
    = (Next e, {| world := w1; calls := [CallGet (param req "username")] |}).
Proof. intros Hget. unfold get_username. run. use Hget. reflexivity. Qed.

(** X11: a library none of whose entries has an external id is sent
    back exactly as [User.get] returned it, however many entries it has,
    and without any request to the catalog. *)
Theorem get_username_no_external_ids (req : request) (w w1 : W)
    (user : value) (items : list value) :
  User_get (param req "username") w = (Ok user, w1) ->
  get_prop user "works" = Ok (VArr items) ->
  (forall x, In x items ->
     exists api_id, get_prop x "api_id" = Ok api_id /\ is_set api_id = false) ->
  get_username req (start w)
    = (Responded 200 (VObj [("user", user)]),
       {| world := w1; calls := [CallGet (param req "username")] |}).
Proof.
  intros Hget Hworks Hunset.
  destruct (Nat.ltb 1 (List.length items)) eqn:Hlen.
  - unfold get_username. run. use Hget. use Hworks.
    rewrite more_than_one_array, Hlen. cbn [iterate].
    rewrite (for_of_unset items _ Hunset). cbn [iterated].
    rewrite (mutated_same user (VArr items) "works" Hworks); [reflexivity |].
    discriminate.
  - apply get_username_skips with (works := VArr items); try assumption.
    rewrite more_than_one_array, Hlen. reflexivity.
Qed.

(** X12: on a runtime whose global object has no [api_id], as the
    server's, no run of GET /:username ever reaches the catalog: its one
    call is [User.get], and whenever it sends a response, that response is
    200 with the user exactly as [User.get] returned it, never an enriched
    one. *)
Theorem get_username_without_global (req : request) (w : W) :
  assoc "api_id" globalThis = None ->
  calls (snd (get_username req (start w))) = [CallGet (param req "username")] /\
  world (snd (get_username req (start w))) = snd (User_get (param req "username") w) /\
  forall status payload,
    fst (get_username req (start w)) = Responded status payload ->
    status = 200 /\
    exists user,
      fst (User_get (param req "username") w) = Ok user /\
      payload = VObj [("user", user)].
Proof.
  intros Hfree. unfold get_username. run.
  destruct (User_get (param req "username") w) as [[user | e] w1]; step;
    [| failed_run].
  destruct (get_prop user "works") as [works | e] eqn:Hworks; step;
    [| failed_run].
  destruct (more_than_one_pure works
              {| world := w1; calls := [CallGet (param req "username")] |})
    as [[[|] | e] Hguard]; rewrite Hguard; step;
    [| answered_run user | failed_run].
  assert (Hdef : works <> VUndef).
  { intros ->. apply more_than_one_truthy in Hguard. discriminate. }
  assert (Hsame : mutated user "works" works = user)
    by (apply mutated_same; assumption).
  destruct works as [| | b | n | s | items | props]; cbn [iterate]; step;
    try failed_run.
  - destruct (for_of_without_global
                (map (fun c => VStr (String c "")) (list_ascii_of_string s))
                {| world := w1; calls := [CallGet (param req "username")] |} Hfree)
      as [Hloop | [e Hloop]]; rewrite Hloop; step; [| failed_run].
    cbn [iterated]. rewrite Hsame. answered_run user.
  - destruct (for_of_without_global items
                {| world := w1; calls := [CallGet (param req "username")] |} Hfree)
      as [Hloop | [e Hloop]]; rewrite Hloop; step; [| failed_run].
    cbn [iterated]. rewrite Hsame. answered_run user.
Qed.

End MoreGetUsername.

(** ** The lookups of the loop *)

Section Lookups.
Context {rt : Runtime} {W : Type} {imports : Imports W}.

(** The loop body sends at most one request, and to that address. *)
Lemma enrich_calls (work : value) (st : state W) :
  calls (snd (enrich work st)) = calls st \/
  exists free,
    assoc "api_id" globalThis = Some free /\
    calls (snd (enrich work st)) = calls st ++ [CallAxiosGet (address_of free)].
Proof.
  unfold enrich, free_identifier, address_of. run.
  destruct (get_prop work "api_id") as [api_id | e]; step; [| left; reflexivity].
  destruct (is_set api_id); step; [| left; reflexivity].
  destruct (assoc "api_id" globalThis) as [free |]; step; [| left; reflexivity].
  right. exists free. split; [reflexivity |].
  destruct (axios_get (url ++ "/work/detail/" ++ ToString free ++ ".json") (world st))
    as [[outsideWork | e] w1]; step; [| reflexivity].
  destruct (get_prop outsideWork "work") as [outside_work | e]; step; [| reflexivity].
  destruct (get_prop outside_work "title") as [title | e]; step; [| reflexivity].
  destruct (set_prop work "title" title) as [work1 | e]; step; [| reflexivity].
  destruct (get_prop outsideWork "composer") as [outside_composer | e]; step;
    [| reflexivity].
  destruct (get_prop outside_composer "complete_name") as [complete_name | e]; step;
    [| reflexivity].
  destruct (set_prop work1 "composer" complete_name); reflexivity.
Qed.

Lemma enrich_lookups (work : value) (st : state W) :
  lookups_at_global (calls st) -> lookups_at_global (calls (snd (enrich work st))).
Proof.
  intros Hst. destruct (enrich_calls work st) as [Hsame | [free [Hfree Hmore]]].
  - rewrite Hsame. exact Hst.
  - rewrite Hmore. intros c Hin Hlookup. apply in_app_or in Hin.
    destruct Hin as [Hold | [Hnew | []]].
    + exact (Hst c Hold Hlookup).
    + rewrite Hfree. symmetry. exact Hnew.
Qed.

Lemma for_of_lookups (items : list value) (st : state W) :
  lookups_at_global (calls st) ->
  lookups_at_global (calls (snd (for_of items enrich st))).
Proof.
  revert st. induction items as [| x items IH]; intros st Hst; [exact Hst |].
  cbn [for_of]. unfold bind at 1.
  pose proof (enrich_lookups x st Hst) as Hx.
  destruct (enrich x st) as [[x' | e] stx]; cbn [snd] in Hx; [| exact Hx].
  unfold bind at 1.
  pose proof (IH stx Hx) as Hrest.
  destruct (for_of items enrich stx) as [[rest | e] str]; cbn [snd] in Hrest |- *;
    exact Hrest.
Qed.

(** X13: in any run of GET /:username every request to the catalog goes
    to one and the same address, the one built from the global [api_id]:
    no address depends on the entry it is sent for, and where there is no
    such global no request is sent at all. *)
Theorem get_username_one_address (req : request) (w : W) (c : call) :
  In c (calls (snd (get_username req (start w)))) ->
  is_lookup c = true ->
  match assoc "api_id" globalThis with
  | Some free => c = CallAxiosGet (address_of free)
  | None => False
  end.
Proof.
  assert (Hget : lookups_at_global [CallGet (param req "username")]).
  { intros c' [Hc | []] Hlookup. subst c'. discriminate Hlookup. }
  revert c. change (lookups_at_global (calls (snd (get_username req (start w))))).
  unfold get_username. run.
  destruct (User_get (param req "username") w) as [[user | e] w1]; step;
    [| apply Hget].
  destruct (get_prop user "works") as [works | e]; step; [| apply Hget].
  destruct (more_than_one_pure works
              {| world := w1; calls := [CallGet (param req "username")] |})
    as [[[|] | e] Hguard]; rewrite Hguard; step; try apply Hget.
  destruct (iterate works) as [items | e]; step; [| apply Hget].
  pose proof (for_of_lookups items
                {| world := w1; calls := [CallGet (param req "username")] |}
                Hget) as Hloop.
  destruct (for_of items enrich
              {| world := w1; calls := [CallGet (param req "username")] |})
    as [[items' | e] st']; cbn [snd] in Hloop |- *; exact Hloop.
Qed.

(** The loop body on an entry with an external id, an address that can
    be built and an answer that has a [work] and a [composer]. *)
Lemma enrich_answered (work api_id free outsideWork : value) (st : state W) (w' : W)
    (outside_work title outside_composer complete_name : value) :
  get_prop work "api_id" = Ok api_id ->
  is_set api_id = true ->
  assoc "api_id" globalThis = Some free ->
  axios_get (address_of free) (world st) = (Ok outsideWork, w') ->
  get_prop outsideWork "work" = Ok outside_work ->
  get_prop outside_work "title" = Ok title ->
  get_prop outsideWork "composer" = Ok outside_composer ->
  get_prop outside_composer "complete_name" = Ok complete_name ->
  enrich work st
    = (Ok (with_title_and_composer title complete_name work),
       {| world := w'; calls := calls st ++ [CallAxiosGet (address_of free)] |}).
Proof.
  intros Hid Hset Hfree Hreq Hwork Htitle Hcomposer Hname.
  destruct work as [| | b | n | s | items | props];
    try solve [cbn in Hid; inversion Hid; subst; discriminate Hset].
  unfold enrich, free_identifier, address_of in *. run.
  use Hid. use Hset. use Hfree. use Hreq. use Hwork. use Htitle.
  cbn [set_prop]. step. use Hcomposer. use Hname. reflexivity.
Qed.

(** The loop body on an answer without a [work] property. *)
Lemma enrich_unwrapped (work api_id free outsideWork : value)
    (st : state W) (w' : W) :
  get_prop work "api_id" = Ok api_id ->
  is_set api_id = true ->
  assoc "api_id" globalThis = Some free ->
  axios_get (address_of free) (world st) = (Ok outsideWork, w') ->
  get_prop outsideWork "work" = Ok VUndef ->
  enrich work st
    = (Throw (TypeError "Cannot read properties of undefined (reading 'title')"),
       {| world := w'; calls := calls st ++ [CallAxiosGet (address_of free)] |}).
Proof.
  intros Hid Hset Hfree Hreq Hwork.
  unfold enrich, free_identifier, address_of in *. run.
  use Hid. use Hset. use Hfree. use Hreq. use Hwork. reflexivity.
Qed.

(** X14: what the loop body does to an entry with an external id once
    the address can be built and the catalog's answer has a [work] and a
    [composer]: one request, after which the entry reads the answer's
    [work.title] under [title] and its [composer.complete_name] under
    [composer], and every other property of the entry reads as before. *)
Theorem enrich_resolves (work api_id free outsideWork : value) (st : state W) (w' : W)
    (outside_work title outside_composer complete_name : value) :
  get_prop work "api_id" = Ok api_id ->
  is_set api_id = true ->
  assoc "api_id" globalThis = Some free ->
  axios_get (address_of free) (world st) = (Ok outsideWork, w') ->
  get_prop outsideWork "work" = Ok outside_work ->
  get_prop outside_work "title" = Ok title ->
  get_prop outsideWork "composer" = Ok outside_composer ->
  get_prop outside_composer "complete_name" = Ok complete_name ->
  exists work',
    enrich work st
      = (Ok work',
         {| world := w'; calls := calls st ++ [CallAxiosGet (address_of free)] |}) /\
    get_prop work' "title" = Ok title /\
    get_prop work' "composer" = Ok complete_name /\
    forall k, k <> "title" -> k <> "composer" -> get_prop work' k = get_prop work k.
Proof.
  intros Hid Hset Hfree Hreq Hwork Htitle Hcomposer Hname.
  exists (with_title_and_composer title complete_name work).
  split; [| split; [| split]].
  - apply (enrich_answered work api_id free outsideWork st w'
             outside_work title outside_composer complete_name); assumption.
  - destruct work as [| | b | n | s | items | props];
      try solve [cbn in Hid; inversion Hid; subst; discriminate Hset].
    cbn [with_title_and_composer get_prop].
    rewrite assoc_assign_other by discriminate.
    rewrite assoc_assign_same. reflexivity.
  - destruct work as [| | b | n | s | items | props];
      try solve [cbn in Hid; inversion Hid; subst; discriminate Hset].
    cbn [with_title_and_composer get_prop].
    rewrite assoc_assign_same. reflexivity.
  - intros k Htitle_key Hcomposer_key.
    destruct work as [| | b | n | s | items | props]; try reflexivity.
    cbn [with_title_and_composer get_prop].
    rewrite !assoc_assign_other by assumption. reflexivity.
Qed.

(** X15: an answer of the catalog that has no [work] property of its
    own, as when the payload sits under [data], fails the request even
    where the address can be built: the first entry with an external id
    sends its request and then stops the run with a TypeError; no user
    object is sent. *)
Theorem get_username_answer_without_work (req : request) (w w1 w2 : W)
    (user entry api_id free outsideWork : value) (before after : list value) :
  assoc "api_id" globalThis = Some free ->
  User_get (param req "username") w = (Ok user, w1) ->
  get_prop user "works" = Ok (VArr (before ++ entry :: after)) ->
  1 < List.length (before ++ entry :: after) ->
  (forall x, In x before ->
     exists a, get_prop x "api_id" = Ok a /\ is_set a = false) ->
  get_prop entry "api_id" = Ok api_id -> is_set api_id = true ->
  axios_get (address_of free) w1 = (Ok outsideWork, w2) ->
  get_prop outsideWork "work" = Ok VUndef ->
  get_username req (start w)
    = (Next (TypeError "Cannot read properties of undefined (reading 'title')"),
       {| world := w2;
          calls := [CallGet (param req "username");
                    CallAxiosGet (address_of free)] |}).
Proof.
  intros Hfree Hget Hworks Hlen Hbefore Hentry Hset Hreq Hwork.
  apply (get_username_loop_throws req w w1 user entry before after before
           {| world := w1; calls := [CallGet (param req "username")] |});
    try assumption.
  - apply for_of_unset; assumption.
  - apply (enrich_unwrapped entry api_id free outsideWork
             {| world := w1; calls := [CallGet (param req "username")] |} w2);
      assumption.
Qed.

(** With a catalog that gives the same answer whatever the world, the
    loop visits every entry: those with an external id get the answer's
    title and composer, one request each. *)
Lemma for_of_enriches (free outsideWork outside_work title
    outside_composer complete_name : value) :
  assoc "api_id" globalThis = Some free ->
  (forall w', axios_get (address_of free) w' = (Ok outsideWork, w')) ->
  get_prop outsideWork "work" = Ok outside_work ->
  get_prop outside_work "title" = Ok title ->
  get_prop outsideWork "composer" = Ok outside_composer ->
  get_prop outside_composer "complete_name" = Ok complete_name ->
  forall (items : list value) (st : state W),
    (forall x, In x items -> x <> VUndef /\ x <> VNull) ->
    for_of items enrich st
      = (Ok (map (enriched title complete_name) items),
         {| world := world st;
            calls := calls st ++
              repeat (CallAxiosGet (address_of free))
                     (List.length (filter has_external_id items)) |}).
Proof.
  intros Hfree Hcatalog Hwork Htitle Hcomposer Hname.
  induction items as [| x items IH]; intros st Hitems.
  - cbn. rewrite app_nil_r. destruct st; reflexivity.
  - cbn [for_of map filter].
    assert (Hx : exists api_id, get_prop x "api_id" = Ok api_id).
    { destruct (Hitems x (or_introl eq_refl)) as [Hundef Hnull].
      destruct x; try contradiction; cbn; try (eexists; reflexivity).
      destruct (assoc "api_id" props); eexists; reflexivity. }
    destruct Hx as [api_id Hid].
    unfold enriched at 1, has_external_id at 1 2. rewrite Hid.
    destruct (is_set api_id) eqn:Hset.
    + rewrite (bind_ok _ _ _ _ _
                 (enrich_answered x api_id free outsideWork st (world st)
                    outside_work title outside_composer complete_name
                    Hid Hset Hfree (Hcatalog (world st)) Hwork Htitle Hcomposer Hname)).
      rewrite (bind_ok _ _ _ _ _ (IH _ (fun y Hy => Hitems y (or_intror Hy)))).
      unfold ret. cbn [world calls List.length repeat].
      rewrite <- app_assoc. reflexivity.
    + rewrite (bind_ok _ _ _ _ _ (enrich_unset x api_id st Hid Hset)).
      rewrite (bind_ok _ _ _ _ _ (IH _ (fun y Hy => Hitems y (or_intror Hy)))).
      reflexivity.
Qed.

(** X16: the run the loop was written for.  Where the address can be
    built and the catalog gives its answer, a library of more than one
    entry comes back with every entry that has an external id carrying the
    answer's title and composer and every other entry as it was, in the
    original order, after one request per entry with an external id. *)
Theorem get_username_enriches (req : request) (w w1 : W)
    (user free outsideWork outside_work title outside_composer complete_name : value)
    (items : list value) :
  assoc "api_id" globalThis = Some free ->
  User_get (param req "username") w = (Ok user, w1) ->
  get_prop user "works" = Ok (VArr items) ->
  1 < List.length items ->
  (forall x, In x items -> x <> VUndef /\ x <> VNull) ->
  (forall w', axios_get (address_of free) w' = (Ok outsideWork, w')) ->
  get_prop outsideWork "work" = Ok outside_work ->
  get_prop outside_work "title" = Ok title ->
  get_prop outsideWork "composer" = Ok outside_composer ->
  get_prop outside_composer "complete_name" = Ok complete_name ->
  exists user',
    get_username req (start w)
      = (Responded 200 (VObj [("user", user')]),
         {| world := w1;
            calls := CallGet (param req "username") ::
              repeat (CallAxiosGet (address_of free))
                     (List.length (filter has_external_id items)) |}) /\
    get_prop user' "works" = Ok (VArr (map (enriched title complete_name) items)) /\
    forall k, k <> "works" -> get_prop user' k = get_prop user k.
Proof.
  intros Hfree Hget Hworks Hlen Hitems Hcatalog Hwork Htitle Hcomposer Hname.
  exists (mutated user "works" (VArr (map (enriched title complete_name) items))).
  split; [| split].
  - unfold get_username. run. use Hget. use Hworks.
    rewrite more_than_one_array.
    destruct (Nat.ltb_spec 1 (List.length items)) as [_ | Hle]; [| lia].
    cbn [iterate].
    rewrite (for_of_enriches free outsideWork outside_work title outside_composer
               complete_name Hfree Hcatalog Hwork Htitle Hcomposer Hname items _ Hitems).
    reflexivity.
  - destruct user as [| | b | n | s | uitems | props];
      try solve [cbn in Hworks; inversion Hworks].
    cbn [mutated get_prop]. rewrite assoc_assign_same. reflexivity.
  - intros k Hk.
    destruct user as [| | b | n | s | uitems | props]; try reflexivity.
    cbn [mutated get_prop]. rewrite assoc_assign_other by assumption. reflexivity.
Qed.

End Lookups.

(** * Properties of the forms *)

Section Forms.
Import Frontend.
Context {S : Type} {api : Api S}.

Lemma typed_snoc (evts : list change_event) (evt : change_event) (p : page S) :
  typed (evts ++ [evt]) p = handleChange evt (typed evts p).
Proof. unfold typed. rewrite fold_left_app. reflexivity. Qed.

Lemma typed_touches_the_form_only (evts : list change_event) (p : page S) :
  server (typed evts p) = server p /\
  currentUser (typed evts p) = currentUser p /\
  localStorage (typed evts p) = localStorage p /\
  history (typed evts p) = history p.
Proof.
  induction evts as [| evt evts IH] using rev_ind; [repeat split |].
  rewrite typed_snoc. exact IH.
Qed.

(** X17: [handleChange] writes what the input holds under the input's
    name and leaves every other field of the form as it was; typing a
    sequence of changes, each field ends up with the value of the last
    change that named it, or with what it held before when none did. *)
Theorem typed_last_change_wins (evts : list change_event) (p : page S) (k : string) :
  assoc k (formData (typed evts p))
    = match find (fun evt => String.eqb (target_name evt) k) (rev evts) with
      | Some evt => Some (VStr (target_value evt))
      | None => assoc k (formData p)
      end.
Proof.
  induction evts as [| evt evts IH] using rev_ind; [reflexivity |].
  rewrite typed_snoc, rev_unit. cbn [find handleChange setFormData formData].
  destruct (String.eqb_spec (target_name evt) k) as [Heq | Hneq].
  - subst k. apply assoc_assign_same.
  - rewrite assoc_assign_other by congruence. exact IH.
Qed.

(** X18: the form of [Signup] keeps its shape: whatever is typed into
    its four inputs, in whatever order and however often, the data it
    holds has the four keys of the initial state, in their initial
    order. *)
Theorem Signup_typed_keeps_keys (evts : list change_event) (p : page S) :
  map fst (formData p) = map fst Signup_initialState ->
  Forall (fun evt => In (target_name evt) ["username"; "name"; "email"; "password"])
         evts ->
  map fst (formData (typed evts p)) = ["username"; "name"; "password"; "email"].
Proof.
  intros Hkeys Hinputs.
  induction evts as [| evt evts IH] using rev_ind; [exact Hkeys |].
  apply Forall_app in Hinputs. destruct Hinputs as [Hevts Hevt].
  inversion Hevt as [| ? ? Hname _]; subst.
  rewrite typed_snoc. cbn [handleChange setFormData formData].
  rewrite keys_assign_present; [exact (IH Hevts) |].
  rewrite (IH Hevts). cbn [In] in *. intuition.
Qed.

(** X19: the form of [User] starts with the keys [firstName], [lastName],
    [email] and [password], while its inputs are named [name], [email] and
    [password]: whatever is typed, [firstName] and [lastName] stay what
    they were, and the first change of the name input adds a fifth key,
    [name], at the end. *)
Theorem User_typed_names (evts : list change_event) (p : page S) :
  map fst (formData p) = ["firstName"; "lastName"; "email"; "password"] ->
  Forall (fun evt => In (target_name evt) ["name"; "email"; "password"]) evts ->
  assoc "firstName" (formData (typed evts p)) = assoc "firstName" (formData p) /\
  assoc "lastName" (formData (typed evts p)) = assoc "lastName" (formData p) /\
  map fst (formData (typed evts p))
    = ["firstName"; "lastName"; "email"; "password"] ++
      (if existsb (fun evt => String.eqb (target_name evt) "name") evts
       then ["name"] else []).
Proof.
  intros Hkeys Hinputs.
  induction evts as [| evt evts IH] using rev_ind.
  - unfold typed. cbn [fold_left existsb app]. rewrite Hkeys.
    repeat split.
  - apply Forall_app in Hinputs. destruct Hinputs as [Hevts Hevt].
    inversion Hevt as [| ? ? Hname _]; subst.
    destruct (IH Hevts) as [Hfirst [Hlast Hshape]].
    rewrite typed_snoc, existsb_app. cbn [handleChange setFormData formData existsb].
    rewrite orb_false_r.
    split; [| split].
    + rewrite assoc_assign_other; [exact Hfirst |].
      cbn [In] in Hname. intros Heq. rewrite <- Heq in Hname.
      destruct Hname as [H | [H | [H | []]]]; discriminate H.
    + rewrite assoc_assign_other; [exact Hlast |].
      cbn [In] in Hname. intros Heq. rewrite <- Heq in Hname.
      destruct Hname as [H | [H | [H | []]]]; discriminate H.
    + destruct (existsb (fun e => String.eqb (target_name e) "name") evts) eqn:Hseen.
      * cbn [orb]. rewrite keys_assign_present; [exact Hshape |].
        rewrite Hshape. cbn [In app] in *. intuition.
      * cbn [orb]. destruct (String.eqb_spec (target_name evt) "name") as [Heq | Hneq].
        -- rewrite Heq. rewrite keys_assign_absent; rewrite Hshape; [reflexivity |].
           cbn. intuition; discriminate.
        -- rewrite keys_assign_present; [exact Hshape |].
           rewrite Hshape. cbn [In app] in *. intuition.
Qed.

(** X20: [Signup.handleSubmit] never throws.  When [signup] resolves the
    form is reset to its initial state; when it rejects the form keeps
    what was typed, and the error paragraph is only returned to the caller
    of the handler: nothing of it is stored in the page.  Either way
    [signup] was called once, with the data of the form. *)
Theorem Signup_handleSubmit_outcomes (p : page S) :
  exists r p',
    Signup_handleSubmit p = (Ok r, p') /\
    server p' = snd (signup (VObj (formData p)) (server p)) /\
    currentUser p' = currentUser p /\
    localStorage p' = localStorage p /\
    history p' = history p /\
    match fst (signup (VObj (formData p)) (server p)) with
    | Ok _ =>
        r = Nothing /\ formData p' = Signup_initialState /\
        effects p' = effects p ++
          [PreventDefault; CallSignup (VObj (formData p));
           SetFormData Signup_initialState]
    | Throw _ =>
        r = Paragraph "Error, please try again." /\ formData p' = formData p /\
        effects p' = effects p ++ [PreventDefault; CallSignup (VObj (formData p))]
    end.
Proof.
  unfold Signup_handleSubmit, await_api, log, setFormData.
  cbn [server formData currentUser localStorage history effects].
  destruct (signup (VObj (formData p)) (server p)) as [[done | e] s'];
    do 2 eexists; (split; [reflexivity |]);
    cbn [fst snd server formData currentUser localStorage history effects];
    rewrite <- ?app_assoc; repeat split.
Qed.

(** X21: [User.handleSubmit] sends the data of the form to [updateUser]
    under the username of the context.  When that resolves, the form is
    reset to the initial state computed from the user of the context,
    which the handler does not refresh: the form shows the values from
    before the update.  When it rejects, the rejection is the handler's
    own (there is no [catch]) and the form is not reset. *)
Theorem User_handleSubmit_outcomes (p : page S)
    (initialState : list (string * value)) (username : value)
    (answer : result value) (s' : S) :
  User_initialState (currentUser p) = Ok initialState ->
  get_prop (currentUser p) "username" = Ok username ->
  updateUser username (VObj (formData p)) (server p) = (answer, s') ->
  User_handleSubmit p
    = match answer with
      | Ok _ =>
          (Ok Nothing,
           {| server := s'; formData := initialState;
              currentUser := currentUser p; localStorage := localStorage p;
              history := history p;
              effects := effects p ++
                [PreventDefault; CallUpdateUser username (VObj (formData p));
                 SetFormData initialState] |})
      | Throw e =>
          (Throw e,
           {| server := s'; formData := formData p;
              currentUser := currentUser p; localStorage := localStorage p;
              history := history p;
              effects := effects p ++
                [PreventDefault; CallUpdateUser username (VObj (formData p))] |})
      end.
Proof.
  intros Hinit Hname Hupdate.
  unfold User_handleSubmit, await_api, log, setFormData.
  cbn [server formData currentUser localStorage history effects].
  rewrite Hinit, Hname, Hupdate.
  destruct answer;
    cbn [server formData currentUser localStorage history effects];
    rewrite <- ?app_assoc; reflexivity.
Qed.

(** X22: [User.deleteClick] logs the user out only after [deleteUser]
    resolved: then the local storage is cleared, the user of the context
    is set to null and the history gets [/], in that order.  When
    [deleteUser] rejects, the rejection is the handler's own and none of
    the three happens: storage, user and history are as before. *)
Theorem User_deleteClick_outcomes (p : page S) (username : value)
    (answer : result value) (s' : S) :
  get_prop (currentUser p) "username" = Ok username ->
  deleteUser username (server p) = (answer, s') ->
  User_deleteClick p
    = match answer with
      | Ok _ =>
          (Ok Nothing,
           {| server := s'; formData := formData p;
              currentUser := VNull; localStorage := [];
              history := history p ++ ["/"];
              effects := effects p ++
                [PreventDefault; CallDeleteUser username;
                 LocalStorageClear; SetCurrentUser VNull; HistoryPush "/"] |})
      | Throw e =>
          (Throw e,
           {| server := s'; formData := formData p;
              currentUser := currentUser p; localStorage := localStorage p;
              history := history p;
              effects := effects p ++ [PreventDefault; CallDeleteUser username] |})
      end.
Proof.
  intros Hname Hdelete.
  unfold User_deleteClick, await_api, log.
  cbn [server formData currentUser localStorage history effects].
  rewrite Hname, Hdelete.
  destruct answer;
    cbn [server formData currentUser localStorage history effects];
    rewrite <- ?app_assoc; reflexivity.
Qed.

End Forms.

(** ** The undeclared identifier, in general *)

Section Undeclared.
Context {rt : Runtime} {W : Type} {imports : Imports W}.

Lemma for_of_reference_error (items : list value) (st : state W) :
  assoc "api_id" globalThis = None ->
  (forall x, In x items -> x <> VUndef /\ x <> VNull) ->
  existsb has_external_id items = true ->
  for_of items enrich st = (Throw (ReferenceError "api_id is not defined"), st).
Proof.
  intros Hfree. induction items as [| x items IH]; intros Hitems Hsome;
    [discriminate Hsome |].
  cbn [for_of existsb] in *.
  assert (Hx : exists api_id, get_prop x "api_id" = Ok api_id).
  { destruct (Hitems x (or_introl eq_refl)) as [Hundef Hnull].
    destruct x; try contradiction; cbn; try (eexists; reflexivity).
    destruct (assoc "api_id" props); eexists; reflexivity. }
  destruct Hx as [api_id Hid].
  unfold has_external_id at 1 in Hsome. rewrite Hid in Hsome.
  destruct (is_set api_id) eqn:Hset.
  - apply bind_throw. apply enrich_undeclared with (api_id := api_id); assumption.
  - rewrite (bind_ok _ _ _ _ _ (enrich_unset x api_id st Hid Hset)).
    apply bind_throw. apply IH; [| exact Hsome].
    intros y Hy. apply Hitems. right. exact Hy.
Qed.

(** X23: on a runtime whose global object has no [api_id], as the
    server's, GET /:username fails for every library of more than one
    entry in which some entry has an external id: the run ends with [next]
    of the ReferenceError for [api_id], after the one call to [User.get],
    whatever the catalog would have answered. *)
Theorem get_username_reference_error (req : request) (w w1 : W)
    (user : value) (items : list value) :
  assoc "api_id" globalThis = None ->
  User_get (param req "username") w = (Ok user, w1) ->
  get_prop user "works" = Ok (VArr items) ->
  1 < List.length items ->
  (forall x, In x items -> x <> VUndef /\ x <> VNull) ->
  existsb has_external_id items = true ->
  get_username req (start w)
    = (Next (ReferenceError "api_id is not defined"),
       {| world := w1; calls := [CallGet (param req "username")] |}).
Proof.
  intros Hfree Hget Hworks Hlen Hitems Hsome.
  unfold get_username. run. use Hget. use Hworks.
  rewrite more_than_one_array.
  destruct (Nat.ltb_spec 1 (List.length items)) as [_ | Hle]; [| lia].
  cbn [iterate].
  rewrite (for_of_reference_error items _ Hfree Hitems Hsome). reflexivity.
Qed.

End Undeclared.


(** * The further theorems at work *)

Section MoreWitnesses.
Import Demo Directory Scenes Frontend.

(** Root posts a body that is not a user. *)
Lemma post_root_malformed_witness :
  post_root (imports := up) (request_for root "" not_a_user) (start store)
    = (Next (BadRequestError (VArr [VStr "instance is not a new user"])),
       start store).
Proof.
  apply (post_root_malformed (imports := up) (request_for root "" not_a_user) store).
  reflexivity.
Defined.

(** Root registers Bob: the response is the 201. *)
Lemma post_root_responds_only_created_witness :
  201 = 201 /\
  valid (validate bob userNewSchema) = true /\
  exists user token,
    fst (register (credentials := plain) bob store) = Ok user /\
    issue user = Ok token /\
    VObj [("user", VObj (public bob_record)); ("token", VStr "token:bob")]
      = VObj [("user", user); ("token", token)].
Proof.
  apply (post_root_responds_only_created (imports := up)
           (request_for root "" bob) store 201
           (VObj [("user", VObj (public bob_record)); ("token", VStr "token:bob")])).
  reflexivity.
Defined.

(** Root registers Bob while the token service has no secret. *)
Lemma post_root_token_failure_witness :
  post_root (imports := unconfigured) (request_for root "" bob) (start store)
    = (Next (Thrown (VStr "secretOrPrivateKey must have a value")),
       {| world := store_with_bob; calls := [CallRegister bob] |}).
Proof.
  apply (post_root_token_failure (imports := unconfigured)
           (request_for root "" bob) store store_with_bob
           (VObj (public bob_record))); reflexivity.
Defined.

(** Root lists the three users. *)
Lemma get_root_lists_witness :
  get_root (imports := up) (request_for root "" VUndef) (start store)
    = (Responded 200
         (VObj [("users", VArr [VObj (public root); VObj (public alice);
                                VObj (public carol)])]),
       {| world := store; calls := [CallFindAll] |}).
Proof.
  apply (get_root_lists (imports := up) (request_for root "" VUndef) store store
           (Ok (VArr [VObj (public root); VObj (public alice); VObj (public carol)]))).
  reflexivity.
Defined.

(** Alice deletes herself; Alice deletes Eve, who does not exist. *)
Lemma delete_username_echoes_witness :
  delete_username (imports := up) (request_for alice "alice" VUndef) (start store)
    = (Responded 200 (VObj [("deleted", VStr "alice")]),
       {| world := snd (remove (VStr "alice") store);
          calls := [CallRemove (VStr "alice")] |}) /\
  delete_username (imports := up) (request_for alice "eve" VUndef) (start store)
    = (Next (NotFoundError (VStr "No user")),
       {| world := store; calls := [CallRemove (VStr "eve")] |}).
Proof.
  split.
  - apply (delete_username_echoes (imports := up)
             (request_for alice "alice" VUndef) store
             (snd (remove (VStr "alice") store)) (Ok VUndef)).
    reflexivity.
  - apply (delete_username_echoes (imports := up)
             (request_for alice "eve" VUndef) store store
             (Throw (NotFoundError (VStr "No user")))).
    reflexivity.
Defined.

(** Root adds a work that does not exist. *)
Lemma post_userLib_rejected_witness :
  post_userLib (rt := node) (imports := up) missing_work_request (start store)
    = (Next (NotFoundError (VStr "No user or no work")),
       {| world := store;
          calls := [CallAddToUserLib (VNum (Fin 1)) (VNum (Fin 99))] |}).
Proof.
  apply (post_userLib_rejected (rt := node) (imports := up)
           missing_work_request store store); reflexivity.
Defined.

(** Alice renames herself with the right password. *)
Lemma patch_username_updates_witness :
  patch_username (imports := up) (request_for alice "alice" right_password)
                 (start store)
    = (Responded 200 (VObj [("user", VObj (public alice_renamed))]),
       {| world := store_renamed;
          calls := [CallAuthenticate (VStr "alice") (VStr "pw123");
                    CallUpdate (VStr "alice") right_password] |}).
Proof.
  apply (patch_username_updates (imports := up)
           (request_for alice "alice" right_password) store store store_renamed
           (VStr "pw123") (VBool true) (VObj (public alice_renamed)));
    reflexivity.
Defined.

(** A model that rejects the wrong password itself. *)
Lemma patch_username_authenticate_rejects_witness :
  patch_username (imports := rejecting) (request_for alice "alice" wrong_password)
                 (start store)
    = (Next (UnauthorizedError (VStr "Invalid username/password")),
       {| world := store;
          calls := [CallAuthenticate (VStr "alice") (VStr "guess")] |}).
Proof.
  apply (patch_username_authenticate_rejects (imports := rejecting)
           (request_for alice "alice" wrong_password) store store (VStr "guess"));
    reflexivity.
Defined.

(** Alice asks for Eve. *)
Lemma get_username_user_missing_witness :
  get_username (rt := node) (imports := up) (request_for alice "eve" VUndef)
               (start store)
    = (Next (NotFoundError (VStr "No user")),
       {| world := store; calls := [CallGet (VStr "eve")] |}).
Proof.
  apply (get_username_user_missing (rt := node) (imports := up)
           (request_for alice "eve" VUndef) store store).
  reflexivity.
Defined.

(** Dave's two entries have no external id. *)
Lemma get_username_no_external_ids_witness :
  get_username (rt := node) (imports := up) (request_for dave "dave" VUndef)
               (start store_plain)
    = (Responded 200 (VObj [("user", dave_view)]),
       {| world := store_plain; calls := [CallGet (VStr "dave")] |}).
Proof.
  apply (get_username_no_external_ids (rt := node) (imports := up)
           (request_for dave "dave" VUndef) store_plain store_plain dave_view
           [VObj [("id", VNum (Fin 43)); ("api_id", VNull)];
            VObj [("id", VNum (Fin 44)); ("api_id", VNull); ("played", VBool true)]]).
  - reflexivity.
  - reflexivity.
  - intros x [Hx | [Hx | []]]; subst x; exists VNull; split; reflexivity.
Defined.

(** Carol on the server's runtime. *)
Lemma get_username_without_global_witness :
  calls (snd (get_username (rt := node) (imports := up)
                (request_for carol "carol" VUndef) (start store)))
    = [CallGet (VStr "carol")] /\
  world (snd (get_username (rt := node) (imports := up)
                (request_for carol "carol" VUndef) (start store)))
    = snd (get (VStr "carol") store) /\
  forall status payload,
    fst (get_username (rt := node) (imports := up)
           (request_for carol "carol" VUndef) (start store))
      = Responded status payload ->
    status = 200 /\
    exists user,
      fst (get (VStr "carol") store) = Ok user /\ payload = VObj [("user", user)].
Proof.
  apply (get_username_without_global (rt := node) (imports := up)
           (request_for carol "carol" VUndef) store).
  reflexivity.
Defined.

(** Carol where the address can be built: both lookups go to the address
    of the global. *)
Lemma get_username_one_address_witness :
  CallAxiosGet lookup_address
    = CallAxiosGet (address_of (rt := node_with_global) (VNum (Fin 7))).
Proof.
  apply (get_username_one_address (rt := node_with_global) (imports := up)
           (request_for carol "carol" VUndef) store (CallAxiosGet lookup_address)).
  - simpl. right; left. reflexivity.
  - reflexivity.
Defined.

(** The entry for work 41 and the answer of the catalog. *)
Lemma enrich_resolves_witness :
  exists work',
    enrich (rt := node_with_global) (imports := up) entry_41 (start store)
      = (Ok work', {| world := store; calls := [CallAxiosGet lookup_address] |}) /\
    get_prop work' "title" = Ok (VStr "Goldberg Variations") /\
    get_prop work' "composer" = Ok (VStr "Johann Sebastian Bach") /\
    forall k, k <> "title" -> k <> "composer" ->
      get_prop work' k = get_prop entry_41 k.
Proof.
  apply (enrich_resolves (rt := node_with_global) (imports := up)
           entry_41 (VNum (Fin 1756)) (VNum (Fin 7)) answer (start store) store
           (VObj [("title", VStr "Goldberg Variations")])
           (VStr "Goldberg Variations")
           (VObj [("complete_name", VStr "Johann Sebastian Bach")])
           (VStr "Johann Sebastian Bach")); reflexivity.
Defined.

(** Carol with a catalog that wraps its answers. *)
Lemma get_username_answer_without_work_witness :
  get_username (rt := node_with_global) (imports := wrapped)
               (request_for carol "carol" VUndef) (start store)
    = (Next (TypeError "Cannot read properties of undefined (reading 'title')"),
       {| world := store;
          calls := [CallGet (VStr "carol"); CallAxiosGet lookup_address] |}).
Proof.
  apply (get_username_answer_without_work (rt := node_with_global) (imports := wrapped)
           (request_for carol "carol" VUndef) store store store carol_view
           entry_41 (VNum (Fin 1756)) (VNum (Fin 7)) wrapped_answer
           [VObj [("id", VNum (Fin 43)); ("api_id", VNull)]]
           [VObj [("id", VNum (Fin 42)); ("api_id", VNum (Fin 1757))]]).
  - reflexivity.
  - reflexivity.
  - reflexivity.
  - simpl. lia.
  - intros x [Hx | []]; subst x; exists VNull; split; reflexivity.
  - reflexivity.
  - reflexivity.
  - reflexivity.
  - reflexivity.
Defined.

(** Carol with the catalog answering. *)
Lemma get_username_enriches_witness :
  exists user',
    get_username (rt := node_with_global) (imports := up)
                 (request_for carol "carol" VUndef) (start store)
      = (Responded 200 (VObj [("user", user')]),
         {| world := store;
            calls := [CallGet (VStr "carol"); CallAxiosGet lookup_address;
                      CallAxiosGet lookup_address] |}) /\
    get_prop user' "works"
      = Ok (VArr (map (enriched (VStr "Goldberg Variations")
                                (VStr "Johann Sebastian Bach")) carol_entries)) /\
    forall k, k <> "works" -> get_prop user' k = get_prop carol_view k.
Proof.
  apply (get_username_enriches (rt := node_with_global) (imports := up)
           (request_for carol "carol" VUndef) store store carol_view
           (VNum (Fin 7)) answer
           (VObj [("title", VStr "Goldberg Variations")])
           (VStr "Goldberg Variations")
           (VObj [("complete_name", VStr "Johann Sebastian Bach")])
           (VStr "Johann Sebastian Bach") carol_entries).
  - reflexivity.
  - reflexivity.
  - reflexivity.
  - simpl. lia.
  - intros x [Hx | [Hx | [Hx | []]]]; subst x; split; discriminate.
  - intros w'. reflexivity.
  - reflexivity.
  - reflexivity.
  - reflexivity.
  - reflexivity.
Defined.

(** Carol on the server's runtime: two of her three entries have an
    external id. *)
Lemma get_username_reference_error_witness :
  get_username (rt := node) (imports := up) (request_for carol "carol" VUndef)
               (start store)
    = (Next (ReferenceError "api_id is not defined"),
       {| world := store; calls := [CallGet (VStr "carol")] |}).
Proof.
  apply (get_username_reference_error (rt := node) (imports := up)
           (request_for carol "carol" VUndef) store store carol_view carol_entries).
  - reflexivity.
  - reflexivity.
  - reflexivity.
  - simpl. lia.
  - intros x [Hx | [Hx | [Hx | []]]]; subst x; split; discriminate.
  - reflexivity.
Defined.

(** Typing into the form of Signup. *)
Lemma Signup_typed_keeps_keys_witness :
  map fst (formData (typed signup_typing (signup_page Signup_initialState)))
    = ["username"; "name"; "password"; "email"].
Proof.
  apply (Signup_typed_keeps_keys signup_typing (signup_page Signup_initialState)).
  - reflexivity.
  - repeat constructor; simpl; tauto.
Defined.

(** Typing into the form of User. *)
Lemma User_typed_names_witness :
  assoc "firstName" (formData (typed profile_typing (profile_page alice_form)))
    = Some VUndef /\
  assoc "lastName" (formData (typed profile_typing (profile_page alice_form)))
    = Some VUndef /\
  map fst (formData (typed profile_typing (profile_page alice_form)))
    = ["firstName"; "lastName"; "email"; "password"; "name"].
Proof.
  apply (User_typed_names profile_typing (profile_page alice_form)).
  - reflexivity.
  - repeat constructor; simpl; tauto.
Defined.

(** Alice submits her profile with the right password, then with none. *)
Lemma User_handleSubmit_outcomes_witness :
  User_handleSubmit (api := api) (profile_page typed_profile)
    = (Ok Nothing,
       {| server := snd (update (VStr "alice") (VObj typed_profile) store);
          formData := alice_form;
          currentUser := alice_context;
          localStorage := [("token", "token:alice")];
          history := ["/"; "/login"; "/user"];
          effects := [PreventDefault;
                      CallUpdateUser (VStr "alice") (VObj typed_profile);
                      SetFormData alice_form] |}) /\
  User_handleSubmit (api := api) (profile_page alice_form)
    = (Throw (UnauthorizedError (VStr "Bad password")),
       {| server := store;
          formData := alice_form;
          currentUser := alice_context;
          localStorage := [("token", "token:alice")];
          history := ["/"; "/login"; "/user"];
          effects := [PreventDefault;
                      CallUpdateUser (VStr "alice") (VObj alice_form)] |}).
Proof.
  split.
  - apply (User_handleSubmit_outcomes (api := api) (profile_page typed_profile)
             alice_form (VStr "alice")
             (Ok (VObj (public (set_profile (VObj typed_profile) alice))))
             (snd (update (VStr "alice") (VObj typed_profile) store)));
      reflexivity.
  - apply (User_handleSubmit_outcomes (api := api) (profile_page alice_form)
             alice_form (VStr "alice")
             (Throw (UnauthorizedError (VStr "Bad password"))) store);
      reflexivity.
Defined.

(** Alice deletes her account. *)
Lemma User_deleteClick_outcomes_witness :
  User_deleteClick (api := api) (profile_page alice_form)
    = (Ok Nothing,
       {| server := snd (remove (VStr "alice") store);
          formData := alice_form;
          currentUser := VNull;
          localStorage := [];
          history := ["/"; "/login"; "/user"; "/"];
          effects := [PreventDefault; CallDeleteUser (VStr "alice");
                      LocalStorageClear; SetCurrentUser VNull; HistoryPush "/"] |}).
Proof.
  apply (User_deleteClick_outcomes (api := api) (profile_page alice_form)
           (VStr "alice") (Ok VUndef) (snd (remove (VStr "alice") store)));
    reflexivity.
Defined.

End MoreWitnesses.
